(** * The example script [examples/temp_do_not_use.py] of pyod

    The script splits a labelled sample matrix into outliers and inliers
    ([_get_sample_indices]), draws one scatter panel per split
    ([_add_sub_plot]) and arranges four of them in a figure ([visualize]).

    NumPy arrays are modelled by their shape and contents, Python exceptions
    by a [result] type, the calls made to matplotlib by the sequence in which
    they are issued, and the object store by a finite map from references to
    arrays. *)

From stdpp Require Import base numbers list sorting strings gmap pretty.
From Stdlib Require Import Ascii.

Open Scope Z_scope.
Open Scope nat_scope.

(** ** Scalars and arrays *)

(** An array entry: a finite number, a NaN, or an infinity.  The script
    compares entries with the literals [0] and [1] only, so that finite
    numbers are kept as integers. *)
Inductive scalar :=
  | Fin (v : Z)
  | NaN
  | Inf (negative : bool).

Global Instance scalar_eq_dec : EqDecision scalar.
Proof. solve_decision. Defined.

Definition isfinite (s : scalar) : bool :=
  match s with Fin _ => true | _ => false end.

(** [s == c] for an integer literal [c]; NaN and the infinities are equal
    to no integer. *)
Definition scalar_eqb (s : scalar) (c : Z) : bool :=
  match s with Fin v => Z.eqb v c | _ => false end.

(** A two-dimensional array of shape [(n_samples, n_features)].  The number
    of columns is part of the array: an array without rows still has one. *)
Record ndarray2 := Ndarray2 {
  n_features : nat;
  rows : list (list scalar)
}.

Global Instance ndarray2_eq_dec : EqDecision ndarray2.
Proof. solve_decision. Defined.

Definition n_samples (X : ndarray2) : nat := length (rows X).

Definition shape (X : ndarray2) : nat * nat := (n_samples X, n_features X).

(** Every row has as many entries as the shape says. *)
Definition wf_ndarray2 (X : ndarray2) : Prop :=
  Forall (λ r, length r = n_features X) (rows X).

(** ** Exceptions *)

(** The [ValueError]s that can reach the caller of [visualize], one
    constructor per place that raises. *)
Inductive value_error :=
  | Not_2d_for_visualization (msg : string)
  | Inconsistent_numbers_of_samples (lengths : list nat)
  | Bad_input_shape (shp : nat * nat)
  | Input_not_finite
  | Too_few_samples (shp : nat * nat)
  | Too_few_features (shp : nat * nat).

Inductive exn :=
  | IndexError (index size : nat)
  | TypeError
  | ValueError (e : value_error).

Inductive result (A : Type) :=
  | Ok (a : A)
  | Raise (e : exn).
Arguments Ok {A} a.
Arguments Raise {A} e.

Global Instance result_ret : MRet result := λ A a, Ok a.
Global Instance result_bind : MBind result := λ A B f m,
  match m with Ok a => f a | Raise e => Raise e end.

Definition is_Ok {A} (r : result A) : Prop := ∃ a, r = Ok a.

(** ** NumPy operations used by the script *)

(** [y == c]: the element-wise comparison of a one-dimensional array with
    an integer literal. *)
Definition np_eq (y : list scalar) (c : Z) : list bool :=
  map (λ v, scalar_eqb v c) y.

(** [np.where(mask)] for a one-dimensional mask: the positions of the
    [True] entries, in ascending order. *)
Fixpoint where_from (i : nat) (mask : list bool) : list nat :=
  match mask with
  | [] => []
  | b :: mask' =>
      if b then i :: where_from (S i) mask' else where_from (S i) mask'
  end.

Definition np_where (mask : list bool) : list nat := where_from 0 mask.

(** Reading row [i] of [X]; NumPy raises [IndexError] past the last row. *)
Definition row_at (X : ndarray2) (i : nat) : result (list scalar) :=
  match rows X !! i with
  | Some r => Ok r
  | None => Raise (IndexError i (n_samples X))
  end.

Fixpoint gather (X : ndarray2) (idx : list nat) : result (list (list scalar)) :=
  match idx with
  | [] => Ok []
  | i :: idx' =>
      r ← row_at X i;
      rs ← gather X idx';
      Ok (r :: rs)
  end.

(** [X[idx]] for an index array [idx]: a new array made of the rows of [X]
    at those positions, with the columns of [X]. *)
Definition getitem (X : ndarray2) (idx : list nat) : result ndarray2 :=
  rs ← gather X idx;
  Ok {| n_features := n_features X; rows := rs |}.

(** ** [_get_sample_indices] *)

Definition _get_sample_indices (X : ndarray2) (y : list scalar)
  : result (ndarray2 * ndarray2) :=
  X_outliers ← getitem X (np_where (np_eq y 1));
  X_inliers ← getitem X (np_where (np_eq y 0));
  Ok (X_outliers, X_inliers).

(** ** State and exceptions

    A computation that reads and extends a state of type [S] and may raise.
    The state reached when an exception is raised is kept: what was done
    before the exception stays done. *)

Definition stateE (S A : Type) : Type := S → result A * S.

Global Instance stateE_ret {S} : MRet (stateE S) := λ A a s, (Ok a, s).
Global Instance stateE_bind {S} : MBind (stateE S) := λ A B f m s,
  match m s with
  | (Ok a, s') => f a s'
  | (Raise e, s') => (Raise e, s')
  end.

(** A computation without effect on the state. *)
Definition lift {S A} (r : result A) : stateE S A := λ s, (r, s).

(** ** scikit-learn's input validation

    The functions of [sklearn.utils.validation] that [visualize] calls, with
    their documented behaviour on numeric arrays of one or two dimensions. *)

(** A label argument: a flat array, or a two-dimensional one. *)
Inductive labels :=
  | Labels1d (v : list scalar)
  | Labels2d (m : ndarray2).

(** The length of the first axis. *)
Definition _num_samples (y : labels) : nat :=
  match y with
  | Labels1d v => length v
  | Labels2d m => n_samples m
  end.

Definition wf_labels (y : labels) : Prop :=
  match y with
  | Labels1d _ => True
  | Labels2d m => wf_ndarray2 m
  end.

(** [column_or_1d(y)]: a flat array is returned as it is, a single column
    is ravelled, anything else is refused. *)
Definition column_or_1d (y : labels) : result (list scalar) :=
  match y with
  | Labels1d v => Ok v
  | Labels2d m =>
      if decide (n_features m = 1) then Ok (concat (rows m))
      else Raise (ValueError (Bad_input_shape (shape m)))
  end.

(** [check_consistent_length], given the lengths of its arguments:
    more than one distinct length is an error. *)
Definition check_consistent_length (lengths : list nat) : result unit :=
  if decide (1 < length (remove_dups lengths))
  then Raise (ValueError (Inconsistent_numbers_of_samples lengths))
  else Ok ().

Definition _assert_all_finite (v : list scalar) : result unit :=
  if forallb isfinite v then Ok () else Raise (ValueError Input_not_finite).

(** [check_array(X)] with its defaults: finite entries, at least one sample
    and at least one feature. *)
Definition check_array (X : ndarray2) : result ndarray2 :=
  _ ← _assert_all_finite (concat (rows X));
  if decide (n_samples X < 1)
  then Raise (ValueError (Too_few_samples (shape X)))
  else if decide (n_features X < 1)
  then Raise (ValueError (Too_few_features (shape X)))
  else Ok X.

(** [check_X_y(X, y)] with its defaults. *)
Definition check_X_y (X : ndarray2) (y : labels)
  : result (ndarray2 * list scalar) :=
  X ← check_array X;
  y ← column_or_1d y;
  _ ← _assert_all_finite y;
  _ ← check_consistent_length [n_samples X; length y];
  Ok (X, y).

(** ** matplotlib

    The calls the script makes to [matplotlib.pyplot] and to the figure it
    creates, with the arguments it passes.  A drawing is the list of the
    calls made so far, oldest first. *)

Inductive plt_call :=
  | Plt_figure (figsize : nat * nat)
  | Plt_suptitle (t : string) (fontsize : nat)
  | Fig_add_subplot (pos : nat)
  | Plt_axis (option : string)
  | Plt_scatter (x y : list scalar) (label color : string) (s : nat)
      (marker : option string)
  | Plt_title (label : string) (fontsize : nat)
  | Plt_xticks (ticks : list scalar)
  | Plt_yticks (ticks : list scalar)
  | Plt_legend (loc : nat) (prop_size : nat)
  | Plt_savefig (fname : string) (dpi : nat)
  | Plt_show.

Global Instance plt_call_eq_dec : EqDecision plt_call.
Proof. solve_decision. Defined.

Abbreviation plt := (stateE (list plt_call)).

Definition call (c : plt_call) : plt unit := λ log, (Ok (), log ++ [c]).

(** [X[:, j]]: column [j] of [X]. *)
Definition column (X : ndarray2) (j : nat) : result (list scalar) :=
  if decide (j < n_features X)
  then mapM (λ r : list scalar,
               match r !! j with
               | Some v => Ok v
               | None => Raise (IndexError j (n_features X))
               end) (rows X)
  else Raise (IndexError j (n_features X)).

(** ** [_add_sub_plot] *)

Definition _add_sub_plot (X_inliers X_outliers : ndarray2)
    (sub_plot_title : string) (inlier_color outlier_color : string)
  : plt unit :=
  _ ← call (Plt_axis "equal");
  x ← lift (column X_inliers 0);
  y ← lift (column X_inliers 1);
  _ ← call (Plt_scatter x y "inliers" inlier_color 40 None);
  x ← lift (column X_outliers 0);
  y ← lift (column X_outliers 1);
  _ ← call (Plt_scatter x y "outliers" outlier_color 50 (Some "^"));
  _ ← call (Plt_title sub_plot_title 15);
  _ ← call (Plt_xticks []);
  _ ← call (Plt_yticks []);
  call (Plt_legend 4 10).

(** ** [visualize] *)

(** [str] of a shape, as Python prints a pair of integers. *)
Definition str_shape (shp : nat * nat) : string :=
  "(" +:+ pretty shp.1 +:+ ", " +:+ pretty shp.2 +:+ ")".

Definition not_2d_message (shp : nat * nat) : string :=
  "Input data has to be 2-d for visualization. The input data has "
    +:+ str_shape shp +:+ ".".

Definition visualize (clf_name : string)
    (X_train : ndarray2) (y_train : labels)
    (X_test : ndarray2) (y_test : labels)
    (y_train_pred y_test_pred : labels)
    (show_figure save_figure : bool) : plt unit :=
  '(X_train, y_train) ← lift (check_X_y X_train y_train);
  '(X_test, y_test) ← lift (check_X_y X_test y_test);
  y_test_pred ← lift (column_or_1d y_test_pred);
  y_train_pred ← lift (column_or_1d y_train_pred);
  _ ← (if decide (n_features X_train ≠ 2 ∨ n_features X_test ≠ 2)
       then lift (Raise (ValueError (Not_2d_for_visualization
                                       (not_2d_message (shape X_train)))))
       else mret ());
  _ ← lift (check_consistent_length [length y_train; length y_train_pred]);
  _ ← lift (check_consistent_length [length y_test; length y_test_pred]);
  '(X_train_outliers, X_train_inliers) ←
     lift (_get_sample_indices X_train y_train);
  '(X_train_outliers_pred, X_train_inliers_pred) ←
     lift (_get_sample_indices X_train y_train_pred);
  '(X_test_outliers, X_test_inliers) ←
     lift (_get_sample_indices X_test y_test);
  '(X_test_outliers_pred, X_test_inliers_pred) ←
     lift (_get_sample_indices X_test y_test_pred);
  _ ← call (Plt_figure (12, 10));
  _ ← call (Plt_suptitle ("Demo of " +:+ clf_name) 15);
  _ ← call (Fig_add_subplot 221);
  _ ← _add_sub_plot X_train_inliers X_train_outliers
        "Train set ground truth" "blue" "orange";
  _ ← call (Fig_add_subplot 222);
  _ ← _add_sub_plot X_train_inliers_pred X_train_outliers_pred
        "Train set prediction" "blue" "orange";
  _ ← call (Fig_add_subplot 223);
  _ ← _add_sub_plot X_test_inliers X_test_outliers
        "Test set ground truth" "green" "red";
  _ ← call (Fig_add_subplot 224);
  _ ← _add_sub_plot X_test_inliers_pred X_test_outliers_pred
        "Test set prediction" "green" "red";
  _ ← (if save_figure then call (Plt_savefig (clf_name +:+ ".png") 300)
       else mret ());
  if show_figure then call Plt_show else mret ().

(** ** The object store

    Python passes arrays by reference.  To speak of what a call leaves
    behind in its arguments, [_get_sample_indices] is also given on
    references into a store of arrays: every NumPy operation reads its
    operands from the store and puts its result into a new object. *)

Inductive obj :=
  | Obj_matrix (X : ndarray2)
  | Obj_vector (y : list scalar)
  | Obj_mask (mask : list bool)
  | Obj_index (idx : list nat).

Abbreviation ref := nat (only parsing).
Abbreviation store := (gmap nat obj) (only parsing).

Definition alloc (o : obj) : stateE store ref := λ σ,
  let l := fresh (dom σ) in (Ok l, <[l := o]> σ).

Definition load (l : ref) : stateE store obj := λ σ,
  match σ !! l with
  | Some o => (Ok o, σ)
  | None => (Raise TypeError, σ)
  end.

(** [y == c] *)
Definition ref_eq (y : ref) (c : Z) : stateE store ref :=
  o ← load y;
  match o with
  | Obj_vector v => alloc (Obj_mask (np_eq v c))
  | _ => lift (Raise TypeError)
  end.

(** [np.where(mask)] *)
Definition ref_where (mask : ref) : stateE store ref :=
  o ← load mask;
  match o with
  | Obj_mask b => alloc (Obj_index (np_where b))
  | _ => lift (Raise TypeError)
  end.

(** [X[idx]] *)
Definition ref_getitem (X idx : ref) : stateE store ref :=
  oX ← load X;
  oi ← load idx;
  match oX, oi with
  | Obj_matrix mX, Obj_index l =>
      r ← lift (getitem mX l);
      alloc (Obj_matrix r)
  | _, _ => lift (Raise TypeError)
  end.

Definition _get_sample_indices_ref (X y : ref) : stateE store (ref * ref) :=
  mask1 ← ref_eq y 1;
  idx1 ← ref_where mask1;
  X_outliers ← ref_getitem X idx1;
  mask0 ← ref_eq y 0;
  idx0 ← ref_where mask0;
  X_inliers ← ref_getitem X idx0;
  mret (X_outliers, X_inliers).

(** ** What the specification says of a partition *)

(** The rows of [X] whose label equals [c], in the order of [X]: the
    specification's description of one half of the partition. *)
Definition rows_with_label (c : Z) (X : ndarray2) (y : list scalar)
  : list (list scalar) :=
  (filter (λ p : scalar * list scalar, scalar_eqb p.1 c = true)
          (zip y (rows X))).*2.

(** [sub] is made of the rows of [X] at the positions [idx], in that
    order, and has the columns of [X]. *)
Definition selects (X : ndarray2) (idx : list nat) (sub : ndarray2) : Prop :=
  n_features sub = n_features X ∧
  Forall2 (λ i r, rows X !! i = Some r) idx (rows sub).

(** A label that is neither [0] nor [1]. *)
Definition other_label (v : scalar) : Prop := v ≠ Fin 0 ∧ v ≠ Fin 1.

Global Instance other_label_dec v : Decision (other_label v).
Proof. unfold other_label. apply _. Defined.

Definition binary_labels (y : list scalar) : Prop :=
  Forall (λ v, v = Fin 0 ∨ v = Fin 1) y.

(** ** Outcomes of the partition on references *)

(** What two calls leave to their callers is the same: the same exception,
    or references to arrays of the same contents. *)
Definition same_outcome (σ1 : store) (r1 : result (ref * ref))
    (σ2 : store) (r2 : result (ref * ref)) : Prop :=
  match r1, r2 with
  | Ok (o1, i1), Ok (o2, i2) =>
      is_Some (σ1 !! o1) ∧ is_Some (σ1 !! i1) ∧
      σ1 !! o1 = σ2 !! o2 ∧ σ1 !! i1 = σ2 !! i2
  | Raise e1, Raise e2 => e1 = e2
  | _, _ => False
  end.

(** The outcome of a call on references is the outcome of
    [_get_sample_indices] on the contents, put into new objects. *)
Definition returns_contents (σ : store) (r : result (ref * ref))
    (v : result (ndarray2 * ndarray2)) : Prop :=
  match v, r with
  | Ok (Xo, Xi), Ok (o, i) =>
      σ !! o = Some (Obj_matrix Xo) ∧ σ !! i = Some (Obj_matrix Xi)
  | Raise e, Raise e' => e = e'
  | _, _ => False
  end.

(** ** Reading a drawing *)

(** The calls of one panel, given the four columns it plots. *)
Definition panel_calls (xi yi xo yo : list scalar) (title : string)
    (inlier_color outlier_color : string) : list plt_call :=
  [ Plt_axis "equal";
    Plt_scatter xi yi "inliers" inlier_color 40 None;
    Plt_scatter xo yo "outliers" outlier_color 50 (Some "^");
    Plt_title title 15;
    Plt_xticks [];
    Plt_yticks [];
    Plt_legend 4 10 ].

(** The calls that end [visualize]: the file is written before the figure
    is shown. *)
Definition output_calls (clf_name : string) (show_figure save_figure : bool)
  : list plt_call :=
  (if save_figure then [Plt_savefig (clf_name +:+ ".png") 300] else [])
  ++ (if show_figure then [Plt_show] else []).

(** The titles set and the series plotted, in the order of the calls. *)
Definition titles (log : list plt_call) : list string :=
  omap (λ c, match c with Plt_title t _ => Some t | _ => None end) log.

Definition series (log : list plt_call) : list (string * string) :=
  omap (λ c, match c with
             | Plt_scatter _ _ label color _ _ => Some (label, color)
             | _ => None
             end) log.

(** The calls that write a file or open a window. *)
Definition is_output (c : plt_call) : bool :=
  match c with
  | Plt_savefig _ _ | Plt_show => true
  | _ => false
  end.

(** ** Kinds of validation error *)

Definition includes (s sub : string) : Prop :=
  ∃ pre post, s = pre +:+ sub +:+ post.

(** The two kinds of validation error of the specification. *)
Definition shape_error (e : exn) : Prop :=
  ∃ msg, e = ValueError (Not_2d_for_visualization msg).

Definition length_error (e : exn) : Prop :=
  ∃ lengths, e = ValueError (Inconsistent_numbers_of_samples lengths).

(** Labels that [check_X_y] accepts on their own. *)
Definition labels_valid (y : labels) : Prop :=
  ∃ v, column_or_1d y = Ok v ∧ _assert_all_finite v = Ok ().

(** ** Notions used to state further properties *)

(** Two labels that are 0 and 1 the other way round: one is a 1 exactly
    when the other is a 0. *)
Definition swapped_label (v v' : scalar) : Prop :=
  (v' = Fin 1 ↔ v = Fin 0) ∧ (v' = Fin 0 ↔ v = Fin 1).

(** An array without NaN and infinities. *)
Definition all_finite (v : list scalar) : Prop :=
  Forall (λ s, isfinite s = true) v.

(** ** The validations of [visualize] and the path it saves to *)

(** The validations of [visualize], in the order in which it makes them. *)
Definition validations (X_train : ndarray2) (y_train : labels)
    (X_test : ndarray2) (y_test : labels) (y_train_pred y_test_pred : labels)
  : list (result unit) :=
  [ check_X_y X_train y_train ≫= (λ _, Ok ());
    check_X_y X_test y_test ≫= (λ _, Ok ());
    column_or_1d y_test_pred ≫= (λ _, Ok ());
    column_or_1d y_train_pred ≫= (λ _, Ok ());
    (if decide (n_features X_train ≠ 2 ∨ n_features X_test ≠ 2)
     then Raise (ValueError (Not_2d_for_visualization
                               (not_2d_message (shape X_train))))
     else Ok ());
    (ytr ← column_or_1d y_train;
     ytrp ← column_or_1d y_train_pred;
     check_consistent_length [length ytr; length ytrp]);
    (yte ← column_or_1d y_test;
     ytep ← column_or_1d y_test_pred;
     check_consistent_length [length yte; length ytep]) ].

(** The exception of the first validation that fails, if one does. *)
Fixpoint first_error (vs : list (result unit)) : option exn :=
  match vs with
  | [] => None
  | Ok _ :: vs' => first_error vs'
  | Raise e :: _ => Some e
  end.


(** ** Example inputs *)

Definition X_3x2 : ndarray2 :=
  {| n_features := 2;
     rows := [[Fin 1; Fin 2]; [Fin 3; Fin 4]; [Fin 5; Fin 6]] |}.

Definition X_1x2 : ndarray2 := {| n_features := 2; rows := [[Fin 1; Fin 2]] |}.

Definition X_1x3 : ndarray2 :=
  {| n_features := 3; rows := [[Fin 1; Fin 2; Fin 3]] |}.

Definition X_2x1 : ndarray2 :=
  {| n_features := 1; rows := [[Fin 1]; [Fin 2]] |}.

Definition X_2x2 : ndarray2 :=
  {| n_features := 2; rows := [[Fin 3; Fin 4]; [Fin 5; Fin 6]] |}.

Definition y_3 : labels := Labels1d [Fin 1; Fin 0; Fin 0].
Definition y_3_pred : labels := Labels1d [Fin 0; Fin 0; Fin 1].
Definition y_3_column : labels :=
  Labels2d {| n_features := 1; rows := [[Fin 0]; [Fin 1]; [Fin 0]] |}.

Definition store_example : gmap nat obj :=
  <[0 := Obj_matrix X_3x2]> (<[1 := Obj_vector [Fin 1; Fin 0; Fin 2]]> ∅).

(** The calls made by [visualize("LOF", ..., show_figure=False,
    save_figure=True)] on a three-row example. *)
Definition LOF_log : list plt_call :=
  Eval vm_compute in
    (visualize "LOF" X_3x2 y_3 X_3x2 y_3 y_3_pred y_3_column false true []).2.

(** * Properties of the partition *)

Section where_facts.
Implicit Types (mask : list bool) (i j k : nat).

Lemma elem_of_where_from i mask k :
  k ∈ where_from i mask ↔ ∃ j, k = i + j ∧ mask !! j = Some true.
Proof.
  revert i. induction mask as [|b mask IH]; intros i; simpl.
  - split; [by intros ?%elem_of_nil | by intros (j & _ & ?)].
  - assert (k ∈ where_from (S i) mask ↔
            ∃ j, k = i + S j ∧ mask !! j = Some true) as IH'.
    { rewrite IH. split; intros (j & -> & ?); exists j; split; auto; lia. }
    destruct b.
    + rewrite elem_of_cons, IH'. split.
      * intros [-> | (j & -> & ?)]; [exists 0 | exists (S j)]; split; auto; lia.
      * intros ([|j] & -> & Hj); [left; lia | right; exists j; auto].
    + rewrite IH'. split.
      * intros (j & -> & ?). exists (S j); auto.
      * intros ([|j] & -> & Hj); [done | exists j; auto].
Qed.

Lemma where_from_sorted i mask : StronglySorted lt (where_from i mask).
Proof.
  revert i. induction mask as [|b mask IH]; intros i; simpl.
  - constructor.
  - destruct b; [|apply IH]. constructor; [apply IH|].
    apply Forall_forall. intros k (j & -> & _)%elem_of_where_from. lia.
Qed.

Lemma elem_of_np_where mask k : k ∈ np_where mask ↔ mask !! k = Some true.
Proof.
  unfold np_where. rewrite elem_of_where_from. split.
  - by intros (j & -> & ?).
  - intros ?. by exists k.
Qed.

Lemma np_where_lt mask k : k ∈ np_where mask → k < length mask.
Proof. rewrite elem_of_np_where. apply lookup_lt_Some. Qed.
End where_facts.

Lemma np_eq_lookup y c k :
  np_eq y c !! k = Some true ↔ ∃ v, y !! k = Some v ∧ scalar_eqb v c = true.
Proof.
  unfold np_eq. rewrite list_lookup_fmap. destruct (y !! k) as [v|]; simpl.
  - split; [intros [= ?]; eauto | by intros (? & [= <-] & ->)].
  - split; [done | by intros (? & ? & _)].
Qed.

Lemma scalar_eqb_true v c : scalar_eqb v c = true ↔ v = Fin c.
Proof.
  destruct v as [z| |]; simpl; try (split; [done | intros [=]]).
  rewrite Z.eqb_eq. split; congruence.
Qed.

(** The positions selected for the label [c] are those where [y] holds [c]. *)
Lemma elem_of_where_eq y c k :
  k ∈ np_where (np_eq y c) ↔ y !! k = Some (Fin c).
Proof.
  rewrite elem_of_np_where, np_eq_lookup. split.
  - by intros (v & -> & ->%scalar_eqb_true).
  - intros ?. exists (Fin c). split; [done | by apply scalar_eqb_true].
Qed.

Section gather_facts.
Implicit Types (X : ndarray2) (idx : list nat) (rs : list (list scalar)).

Lemma row_at_Ok X i r : row_at X i = Ok r ↔ rows X !! i = Some r.
Proof.
  unfold row_at. destruct (rows X !! i); split; intros [=]; by subst.
Qed.

Lemma row_at_Raise X i e :
  row_at X i = Raise e ↔ n_samples X ≤ i ∧ e = IndexError i (n_samples X).
Proof.
  unfold row_at, n_samples.
  destruct (rows X !! i) as [r|] eqn:Hi.
  - apply lookup_lt_Some in Hi. split; [done | lia].
  - apply lookup_ge_None in Hi. split; [intros [= <-]; auto | by intros [_ ->]].
Qed.

Lemma gather_Ok X idx rs :
  gather X idx = Ok rs ↔ Forall2 (λ i r, rows X !! i = Some r) idx rs.
Proof.
  revert rs. induction idx as [|i idx IH]; intros rs; simpl.
  - split; [intros [= <-]; constructor | by intros ->%Forall2_nil_inv_l].
  - destruct (row_at X i) as [r|e] eqn:Hr; simpl.
    + apply row_at_Ok in Hr.
      destruct (gather X idx) as [rs'|e] eqn:Hg; simpl.
      * split.
        -- intros [= <-]. constructor; [done | by apply IH].
        -- intros (r' & rs'' & Hr' & Hrs & ->)%Forall2_cons_inv_l.
           apply IH in Hrs. congruence.
      * split; [done|].
        intros (r' & rs'' & _ & Hrs & ->)%Forall2_cons_inv_l.
        apply IH in Hrs. congruence.
    + split; [done|].
      intros (r' & rs'' & Hr' & _ & ->)%Forall2_cons_inv_l.
      apply row_at_Ok in Hr'. congruence.
Qed.

(** [X[idx]] raises exactly when some index is past the last row, and
    then it is an [IndexError] for such an index. *)
Lemma gather_Raise X idx e :
  gather X idx = Raise e →
  ∃ i, i ∈ idx ∧ n_samples X ≤ i ∧ e = IndexError i (n_samples X).
Proof.
  induction idx as [|i idx IH]; simpl; [done|].
  destruct (row_at X i) as [r|e'] eqn:Hr; simpl.
  - destruct (gather X idx) as [rs'|e'] eqn:Hg; simpl; [done|].
    intros [= <-]. destruct IH as (k & ? & ? & ?); [done|].
    exists k. split_and!; [by right | done | done].
  - intros [= <-]. apply row_at_Raise in Hr as [? ->].
    exists i. split_and!; [by left | done | done].
Qed.

Lemma gather_in_range X idx :
  Forall (λ i, i < n_samples X) idx → ∃ rs, gather X idx = Ok rs.
Proof.
  intros Hall. destruct (gather X idx) as [rs|e] eqn:Hg; [eauto|].
  apply gather_Raise in Hg as (i & Hi & Hge & _).
  rewrite Forall_forall in Hall. apply Hall in Hi. lia.
Qed.

(** Gathering at the positions of a label is filtering by that label. *)
Lemma gather_where_from X y c pre rs :
  rows X = pre ++ rs → length y ≤ length rs →
  gather X (where_from (length pre) (np_eq y c)) =
    Ok (filter (λ p : scalar * list scalar, scalar_eqb p.1 c = true)
               (zip y rs)).*2.
Proof.
  revert pre rs. induction y as [|v y IH]; intros pre rs HX Hlen; [done|].
  destruct rs as [|r rs]; simpl in Hlen; [lia|].
  assert (gather X (where_from (S (length pre)) (np_eq y c)) =
          Ok (filter (λ p : scalar * list scalar, scalar_eqb p.1 c = true)
                     (zip y rs)).*2) as Htail.
  { replace (S (length pre)) with (length (pre ++ [r]))
      by (rewrite length_app; simpl; lia).
    apply IH; [by rewrite <- app_assoc | lia]. }
  simpl. rewrite filter_cons. simpl.
  destruct (scalar_eqb v c) eqn:Hv; simpl.
  - assert (row_at X (length pre) = Ok r) as ->.
    { apply row_at_Ok. rewrite HX. apply list_lookup_middle. done. }
    simpl. by rewrite Htail.
  - apply Htail.
Qed.
End gather_facts.

Lemma getitem_where X y c :
  length y ≤ n_samples X →
  getitem X (np_where (np_eq y c)) =
    Ok {| n_features := n_features X; rows := rows_with_label c X y |}.
Proof.
  intros Hlen. unfold getitem, np_where, rows_with_label.
  pose proof (gather_where_from X y c [] (rows X) eq_refl Hlen) as Hg.
  simpl in Hg. by rewrite Hg.
Qed.

(** On labels no longer than [X], the code computes the partition of the
    specification. *)
Lemma get_sample_indices_filter X y :
  length y ≤ n_samples X →
  _get_sample_indices X y =
    Ok ({| n_features := n_features X; rows := rows_with_label 1 X y |},
        {| n_features := n_features X; rows := rows_with_label 0 X y |}).
Proof.
  intros Hlen. unfold _get_sample_indices.
  by rewrite !getitem_where.
Qed.

Lemma getitem_selects X idx sub : getitem X idx = Ok sub ↔ selects X idx sub.
Proof.
  unfold getitem, selects. destruct (gather X idx) as [rs|e] eqn:Hg; simpl.
  - split.
    + intros [= <-]. simpl. split; [done | by apply gather_Ok].
    + intros [Hf Hrs]. apply gather_Ok in Hrs.
      destruct sub as [nf rs']; simpl in *. congruence.
  - split; [done|]. intros [_ Hrs]. apply gather_Ok in Hrs. congruence.
Qed.

(** Every label is counted once: as a [1], as a [0], or as another value. *)
Lemma label_count (y : list scalar) (rs : list (list scalar)) :
  length y ≤ length rs →
  length (filter (λ p : scalar * list scalar, scalar_eqb p.1 1 = true) (zip y rs))
  + length (filter (λ p : scalar * list scalar, scalar_eqb p.1 0 = true) (zip y rs))
  + length (filter other_label y) = length y.
Proof.
  revert rs. induction y as [|v y IH]; intros rs Hlen; [done|].
  destruct rs as [|r rs]; simpl in Hlen; [lia|].
  specialize (IH rs ltac:(lia)). simpl. rewrite !filter_cons. simpl.
  assert (v = Fin 1 ∨ v = Fin 0 ∨ other_label v) as Hv.
  { unfold other_label. destruct (decide (v = Fin 1)); [auto|].
    destruct (decide (v = Fin 0)); auto. }
  destruct Hv as [-> | [-> | Hv]]; simpl.
  - lia.
  - lia.
  - rewrite (decide_True (P := other_label v)) by done.
    destruct Hv as [H0 H1].
    assert (scalar_eqb v 1 = false) as ->.
    { destruct (scalar_eqb v 1) eqn:E; [|done]. by apply scalar_eqb_true in E. }
    assert (scalar_eqb v 0 = false) as ->.
    { destruct (scalar_eqb v 0) eqn:E; [|done]. by apply scalar_eqb_true in E. }
    simpl. lia.
Qed.

Lemma binary_labels_no_other y : binary_labels y → filter other_label y = [].
Proof.
  induction 1 as [|v y Hv _ IH]; [done|].
  rewrite filter_cons, decide_False; [done|].
  intros [? ?]. by destruct Hv.
Qed.

(** The outcome of a call on labels that are not longer than [X]: the two
    halves, by contents and by position, and the count of the rows. *)
Lemma get_sample_indices_positions X y :
  length y ≤ n_samples X →
  ∃ X_outliers X_inliers,
    _get_sample_indices X y = Ok (X_outliers, X_inliers) ∧
    rows X_outliers = rows_with_label 1 X y ∧
    rows X_inliers = rows_with_label 0 X y ∧
    selects X (np_where (np_eq y 1)) X_outliers ∧
    selects X (np_where (np_eq y 0)) X_inliers ∧
    n_samples X_outliers + n_samples X_inliers
      + length (filter other_label y) = length y.
Proof.
  intros Hlen. eexists _, _. split; [by apply get_sample_indices_filter|].
  split_and!; try done.
  - apply getitem_selects. by apply getitem_where.
  - apply getitem_selects. by apply getitem_where.
  - unfold n_samples at 1 2, rows_with_label. simpl. rewrite !length_fmap.
    by apply label_count.
Qed.

(** No position is selected for both labels. *)
Lemma where_eq_disjoint y i :
  ¬ (i ∈ np_where (np_eq y 1) ∧ i ∈ np_where (np_eq y 0)).
Proof. rewrite !elem_of_where_eq. intros [? ?]. congruence. Qed.

(** C1: for a sample matrix [X] and labels [y] of the same length with
    entries in {0, 1}, [_get_sample_indices] returns a pair (outliers,
    inliers) where the outliers are exactly the rows of [X] labelled 1 and
    the inliers exactly the rows labelled 0, each in the ascending row order
    of [X]; the two sets of row positions are disjoint and the two row
    counts add up to the row count of [X]. *)
Theorem get_sample_indices_partition (X : ndarray2) (y : list scalar) :
  length y = n_samples X →
  binary_labels y →
  ∃ X_outliers X_inliers idx_out idx_in,
    _get_sample_indices X y = Ok (X_outliers, X_inliers) ∧
    rows X_outliers = rows_with_label 1 X y ∧
    rows X_inliers = rows_with_label 0 X y ∧
    selects X idx_out X_outliers ∧
    selects X idx_in X_inliers ∧
    StronglySorted lt idx_out ∧
    StronglySorted lt idx_in ∧
    (∀ i, i ∈ idx_out ↔ y !! i = Some (Fin 1)) ∧
    (∀ i, i ∈ idx_in ↔ y !! i = Some (Fin 0)) ∧
    (∀ i, ¬ (i ∈ idx_out ∧ i ∈ idx_in)) ∧
    n_samples X_outliers + n_samples X_inliers = n_samples X.
Proof.
  intros Hlen Hbin.
  destruct (get_sample_indices_positions X y) as
    (Xo & Xi & Hrun & Ho & Hi & Hso & Hsi & Hcount); [lia|].
  exists Xo, Xi, (np_where (np_eq y 1)), (np_where (np_eq y 0)).
  split_and!; try done.
  - apply where_from_sorted.
  - apply where_from_sorted.
  - apply elem_of_where_eq.
  - apply elem_of_where_eq.
  - apply where_eq_disjoint.
  - rewrite binary_labels_no_other in Hcount by done. simpl in Hcount. lia.
Qed.

Lemma get_sample_indices_partition_witness :
  ∃ X_outliers X_inliers idx_out idx_in,
    _get_sample_indices X_3x2 [Fin 0; Fin 1; Fin 0] = Ok (X_outliers, X_inliers) ∧
    rows X_outliers = rows_with_label 1 X_3x2 [Fin 0; Fin 1; Fin 0] ∧
    rows X_inliers = rows_with_label 0 X_3x2 [Fin 0; Fin 1; Fin 0] ∧
    selects X_3x2 idx_out X_outliers ∧
    selects X_3x2 idx_in X_inliers ∧
    StronglySorted lt idx_out ∧
    StronglySorted lt idx_in ∧
    (∀ i, i ∈ idx_out ↔ [Fin 0; Fin 1; Fin 0] !! i = Some (Fin 1)) ∧
    (∀ i, i ∈ idx_in ↔ [Fin 0; Fin 1; Fin 0] !! i = Some (Fin 0)) ∧
    (∀ i, ¬ (i ∈ idx_out ∧ i ∈ idx_in)) ∧
    n_samples X_outliers + n_samples X_inliers = n_samples X_3x2.
Proof.
  apply (get_sample_indices_partition X_3x2 [Fin 0; Fin 1; Fin 0]).
  - reflexivity.
  - unfold binary_labels.
    repeat (constructor; [(by left) || (by right)|]). constructor.
Defined.

(** C2, as stated, fails on a label other than 0 and 1: for the one-row
    matrix [[1, 2]] with the label vector [2] both subsets are empty, so that
    the row counts add up to 0 and not to 1, and row 0 is in neither. *)
Lemma get_sample_indices_not_total :
  length [Fin 2] = n_samples X_1x2 ∧
  _get_sample_indices X_1x2 [Fin 2] =
    Ok ({| n_features := 2; rows := [] |}, {| n_features := 2; rows := [] |}) ∧
  n_samples {| n_features := 2; rows := [] |}
    + n_samples {| n_features := 2; rows := [] |} ≠ n_samples X_1x2.
Proof. split_and!; [reflexivity | reflexivity | vm_compute; lia]. Qed.

(** C2, amended: for [X] and [y] of equal length the call returns two
    subsets whose row positions are disjoint; a row position is in one of
    them exactly when its label is 0 or 1; the two row counts and the number
    of labels other than 0 and 1 add up to the row count of [X].  When all
    labels are in {0, 1} the partition is total. *)
Theorem get_sample_indices_disjoint_cover (X : ndarray2) (y : list scalar) :
  length y = n_samples X →
  ∃ X_outliers X_inliers idx_out idx_in,
    _get_sample_indices X y = Ok (X_outliers, X_inliers) ∧
    selects X idx_out X_outliers ∧
    selects X idx_in X_inliers ∧
    (∀ i, ¬ (i ∈ idx_out ∧ i ∈ idx_in)) ∧
    (∀ i, i ∈ idx_out ∨ i ∈ idx_in ↔
          y !! i = Some (Fin 1) ∨ y !! i = Some (Fin 0)) ∧
    n_samples X_outliers + n_samples X_inliers
      + length (filter other_label y) = n_samples X ∧
    (binary_labels y →
       n_samples X_outliers + n_samples X_inliers = n_samples X ∧
       ∀ i, i < n_samples X → i ∈ idx_out ∨ i ∈ idx_in).
Proof.
  intros Hlen.
  destruct (get_sample_indices_positions X y) as
    (Xo & Xi & Hrun & _ & _ & Hso & Hsi & Hcount); [lia|].
  exists Xo, Xi, (np_where (np_eq y 1)), (np_where (np_eq y 0)).
  split_and!; try done.
  - apply where_eq_disjoint.
  - intros i. by rewrite !elem_of_where_eq.
  - lia.
  - intros Hbin. split.
    + rewrite binary_labels_no_other in Hcount by done. simpl in Hcount. lia.
    + intros i Hi. rewrite !elem_of_where_eq.
      destruct (lookup_lt_is_Some_2 y i) as [v Hv]; [lia|].
      unfold binary_labels in Hbin. rewrite Forall_lookup in Hbin.
      destruct (Hbin i v Hv) as [-> | ->]; auto.
Qed.

Lemma get_sample_indices_disjoint_cover_witness :
  ∃ X_outliers X_inliers idx_out idx_in,
    _get_sample_indices X_3x2 [Fin 1; Fin 2; Fin 0] = Ok (X_outliers, X_inliers) ∧
    selects X_3x2 idx_out X_outliers ∧
    selects X_3x2 idx_in X_inliers ∧
    (∀ i, ¬ (i ∈ idx_out ∧ i ∈ idx_in)) ∧
    (∀ i, i ∈ idx_out ∨ i ∈ idx_in ↔
          [Fin 1; Fin 2; Fin 0] !! i = Some (Fin 1) ∨
          [Fin 1; Fin 2; Fin 0] !! i = Some (Fin 0)) ∧
    n_samples X_outliers + n_samples X_inliers
      + length (filter other_label [Fin 1; Fin 2; Fin 0]) = n_samples X_3x2 ∧
    (binary_labels [Fin 1; Fin 2; Fin 0] →
       n_samples X_outliers + n_samples X_inliers = n_samples X_3x2 ∧
       ∀ i, i < n_samples X_3x2 → i ∈ idx_out ∨ i ∈ idx_in).
Proof.
  apply (get_sample_indices_disjoint_cover X_3x2 [Fin 1; Fin 2; Fin 0]).
  reflexivity.
Defined.

(** When does [X[idx]] return? *)
Lemma getitem_is_Ok X idx :
  is_Ok (getitem X idx) ↔ Forall (λ i, i < n_samples X) idx.
Proof.
  unfold is_Ok, getitem. split.
  - intros [sub Hsub]. destruct (gather X idx) as [rs|e] eqn:Hg; [|done].
    apply gather_Ok in Hg. apply Forall_forall. intros i Hi.
    apply list_elem_of_lookup in Hi as [k Hk].
    destruct (Forall2_lookup_l _ _ _ _ _ Hg Hk) as (r & _ & Hr).
    by apply lookup_lt_Some in Hr.
  - intros [rs ->]%gather_in_range. simpl. eauto.
Qed.

Lemma getitem_Raise X idx e :
  getitem X idx = Raise e →
  ∃ i, i ∈ idx ∧ n_samples X ≤ i ∧ e = IndexError i (n_samples X).
Proof.
  unfold getitem. destruct (gather X idx) as [rs|e'] eqn:Hg; [done|].
  simpl. intros [= <-]. by apply gather_Raise.
Qed.

Lemma get_sample_indices_is_Ok X y :
  is_Ok (_get_sample_indices X y) ↔
  ∀ i, n_samples X ≤ i → y !! i ≠ Some (Fin 1) ∧ y !! i ≠ Some (Fin 0).
Proof.
  assert (∀ c, is_Ok (getitem X (np_where (np_eq y c))) ↔
               ∀ i, n_samples X ≤ i → y !! i ≠ Some (Fin c)) as Hc.
  { intros c. rewrite getitem_is_Ok, Forall_forall. split.
    - intros H i Hi Hy. apply elem_of_where_eq in Hy. apply H in Hy. lia.
    - intros H i Hy. apply elem_of_where_eq in Hy.
      destruct (decide (i < n_samples X)); [done|]. destruct (H i); [lia | done]. }
  unfold _get_sample_indices. split.
  - intros [[Xo Xi] Hrun] i Hi.
    destruct (getitem X (np_where (np_eq y 1))) as [Xo'|] eqn:H1; [|done].
    destruct (getitem X (np_where (np_eq y 0))) as [Xi'|] eqn:H0; [|done].
    split; [apply Hc | apply Hc]; try done; unfold is_Ok; eauto.
  - intros H.
    destruct (proj2 (Hc 1%Z)) as [Xo ->]; [intros i Hi; by apply H|].
    destruct (proj2 (Hc 0%Z)) as [Xi ->]; [intros i Hi; by apply H|].
    simpl. unfold is_Ok. eauto.
Qed.

Lemma get_sample_indices_Raise X y e :
  _get_sample_indices X y = Raise e →
  ∃ i, n_samples X ≤ i ∧ e = IndexError i (n_samples X) ∧
       (y !! i = Some (Fin 1) ∨ y !! i = Some (Fin 0)).
Proof.
  unfold _get_sample_indices.
  destruct (getitem X (np_where (np_eq y 1))) as [Xo|e1] eqn:H1; simpl.
  - destruct (getitem X (np_where (np_eq y 0))) as [Xi|e0] eqn:H0; [done|].
    simpl. intros [= <-].
    apply getitem_Raise in H0 as (i & Hi%elem_of_where_eq & ? & ?). eauto.
  - intros [= <-].
    apply getitem_Raise in H1 as (i & Hi%elem_of_where_eq & ? & ?). eauto.
Qed.

(** C3, as stated, fails: with three rows and the two labels [1, 0] the
    lengths differ and the call returns the first row as the outliers and
    the second as the inliers. *)
Lemma get_sample_indices_no_length_check :
  length [Fin 1; Fin 0] ≠ n_samples X_3x2 ∧
  _get_sample_indices X_3x2 [Fin 1; Fin 0] =
    Ok ({| n_features := 2; rows := [[Fin 1; Fin 2]] |},
        {| n_features := 2; rows := [[Fin 3; Fin 4]] |}).
Proof. split; [vm_compute; lia | reflexivity]. Qed.

(** C3, amended: [_get_sample_indices] does not compare the lengths.  For
    [X] and [y] of different lengths it returns unless [y] holds a 0 or a 1
    at a position past the last row of [X]; it then raises an [IndexError]
    for such a position.  When [y] is the shorter one the call always
    returns, and selects among the first rows of [X]. *)
Theorem get_sample_indices_length_mismatch (X : ndarray2) (y : list scalar) :
  length y ≠ n_samples X →
  (is_Ok (_get_sample_indices X y) ↔
     ∀ i, n_samples X ≤ i → y !! i ≠ Some (Fin 1) ∧ y !! i ≠ Some (Fin 0)) ∧
  (∀ e, _get_sample_indices X y = Raise e →
     ∃ i, n_samples X ≤ i ∧ e = IndexError i (n_samples X) ∧
          (y !! i = Some (Fin 1) ∨ y !! i = Some (Fin 0))) ∧
  (length y < n_samples X →
     ∃ X_outliers X_inliers,
       _get_sample_indices X y = Ok (X_outliers, X_inliers) ∧
       rows X_outliers = rows_with_label 1 X y ∧
       rows X_inliers = rows_with_label 0 X y).
Proof.
  intros _. split_and!.
  - apply get_sample_indices_is_Ok.
  - apply get_sample_indices_Raise.
  - intros Hlt.
    destruct (get_sample_indices_positions X y) as
      (Xo & Xi & Hrun & Ho & Hi & _); [lia|]. eauto.
Qed.

Lemma get_sample_indices_length_mismatch_witness :
  (is_Ok (_get_sample_indices X_1x2 [Fin 0; Fin 1]) ↔
     ∀ i, n_samples X_1x2 ≤ i →
          [Fin 0; Fin 1] !! i ≠ Some (Fin 1) ∧ [Fin 0; Fin 1] !! i ≠ Some (Fin 0)) ∧
  (∀ e, _get_sample_indices X_1x2 [Fin 0; Fin 1] = Raise e →
     ∃ i, n_samples X_1x2 ≤ i ∧ e = IndexError i (n_samples X_1x2) ∧
          ([Fin 0; Fin 1] !! i = Some (Fin 1) ∨ [Fin 0; Fin 1] !! i = Some (Fin 0))) ∧
  (length [Fin 0; Fin 1] < n_samples X_1x2 →
     ∃ X_outliers X_inliers,
       _get_sample_indices X_1x2 [Fin 0; Fin 1] = Ok (X_outliers, X_inliers) ∧
       rows X_outliers = rows_with_label 1 X_1x2 [Fin 0; Fin 1] ∧
       rows X_inliers = rows_with_label 0 X_1x2 [Fin 0; Fin 1]).
Proof.
  apply (get_sample_indices_length_mismatch X_1x2 [Fin 0; Fin 1]).
  vm_compute. lia.
Defined.

(** The call on labels longer than [X] with a 1 past the last row. *)
Example get_sample_indices_index_error :
  _get_sample_indices X_1x2 [Fin 0; Fin 1] = Raise (IndexError 1 1).
Proof. reflexivity. Qed.

Lemma rows_with_label_none c X y :
  Forall (λ v, v ≠ Fin c) y → rows_with_label c X y = [].
Proof.
  unfold rows_with_label. generalize (rows X) as rs.
  induction y as [|v y IH]; intros rs Hall; [done|].
  destruct rs as [|r rs]; [done|]. simpl.
  apply Forall_cons in Hall as [Hv Hall].
  rewrite filter_cons, decide_False; [by apply IH|].
  simpl. by rewrite scalar_eqb_true.
Qed.

Lemma rows_with_label_all c X y :
  length y = n_samples X → Forall (λ v, v = Fin c) y →
  rows_with_label c X y = rows X.
Proof.
  unfold rows_with_label, n_samples. generalize (rows X) as rs.
  induction y as [|v y IH]; intros rs Hlen Hall.
  - by destruct rs.
  - destruct rs as [|r rs]; [done|]. simpl in *.
    apply Forall_cons in Hall as [Hv Hall].
    rewrite filter_cons, decide_True by (simpl; by rewrite scalar_eqb_true).
    simpl. f_equal. apply IH; [lia | done].
Qed.

(** C9: for a matrix [X] with two columns and labels of its length, labels
    that are all 0 give outliers of shape (0, 2) and all of [X] as inliers;
    labels that are all 1 give inliers of shape (0, 2) and all of [X] as
    outliers. *)
Theorem get_sample_indices_single_class (X : ndarray2) (y : list scalar) :
  n_features X = 2 →
  length y = n_samples X →
  (Forall (λ v, v = Fin 0) y →
     ∃ X_outliers X_inliers,
       _get_sample_indices X y = Ok (X_outliers, X_inliers) ∧
       shape X_outliers = (0, 2) ∧ X_inliers = X) ∧
  (Forall (λ v, v = Fin 1) y →
     ∃ X_outliers X_inliers,
       _get_sample_indices X y = Ok (X_outliers, X_inliers) ∧
       shape X_inliers = (0, 2) ∧ X_outliers = X).
Proof.
  intros Hcols Hlen. split; intros Hall.
  - eexists _, _. split; [apply get_sample_indices_filter; lia|].
    rewrite rows_with_label_none, rows_with_label_all; try done.
    + split; [unfold shape, n_samples; simpl; by rewrite Hcols | by destruct X].
    + eapply Forall_impl; [done|]. by intros v ->.
  - eexists _, _. split; [apply get_sample_indices_filter; lia|].
    rewrite rows_with_label_none, rows_with_label_all; try done.
    + split; [unfold shape, n_samples; simpl; by rewrite Hcols | by destruct X].
    + eapply Forall_impl; [done|]. by intros v ->.
Qed.

Lemma get_sample_indices_single_class_witness :
  (Forall (λ v, v = Fin 0) [Fin 0; Fin 0; Fin 0] →
     ∃ X_outliers X_inliers,
       _get_sample_indices X_3x2 [Fin 0; Fin 0; Fin 0] = Ok (X_outliers, X_inliers) ∧
       shape X_outliers = (0, 2) ∧ X_inliers = X_3x2) ∧
  (Forall (λ v, v = Fin 1) [Fin 0; Fin 0; Fin 0] →
     ∃ X_outliers X_inliers,
       _get_sample_indices X_3x2 [Fin 0; Fin 0; Fin 0] = Ok (X_outliers, X_inliers) ∧
       shape X_inliers = (0, 2) ∧ X_outliers = X_3x2).
Proof.
  apply (get_sample_indices_single_class X_3x2 [Fin 0; Fin 0; Fin 0]);
    reflexivity.
Defined.

(** C10: for [X] and [y] of equal length, a label other than 0 and 1 at
    position [i] raises no error, and position [i] is selected for neither
    subset; when the rows of [X] are pairwise distinct, row [i] occurs in
    neither subset. *)
Theorem get_sample_indices_other_label (X : ndarray2) (y : list scalar)
    (i : nat) (v : scalar) :
  length y = n_samples X →
  y !! i = Some v →
  other_label v →
  ∃ X_outliers X_inliers idx_out idx_in,
    _get_sample_indices X y = Ok (X_outliers, X_inliers) ∧
    selects X idx_out X_outliers ∧
    selects X idx_in X_inliers ∧
    (∀ k, k ∈ idx_out ↔ y !! k = Some (Fin 1)) ∧
    (∀ k, k ∈ idx_in ↔ y !! k = Some (Fin 0)) ∧
    (i ∉ idx_out) ∧ (i ∉ idx_in) ∧
    (NoDup (rows X) → ∀ r, rows X !! i = Some r →
       (r ∉ rows X_outliers) ∧ (r ∉ rows X_inliers)).
Proof.
  intros Hlen Hi [Hv0 Hv1].
  destruct (get_sample_indices_positions X y) as
    (Xo & Xi & Hrun & _ & _ & Hso & Hsi & _); [lia|].
  assert (∀ c, v ≠ Fin c → i ∉ np_where (np_eq y c)) as Hnot.
  { intros c Hc. rewrite elem_of_where_eq. congruence. }
  assert (∀ c sub r, v ≠ Fin c → selects X (np_where (np_eq y c)) sub →
            NoDup (rows X) → rows X !! i = Some r → r ∉ rows sub) as Hrow.
  { intros c sub r Hc [_ Hsel] Hnd Hr [k Hk]%list_elem_of_lookup.
    destruct (Forall2_lookup_r _ _ _ _ _ Hsel Hk) as (j & Hj & Hjr).
    assert (j = i) as -> by (eapply NoDup_lookup; eauto).
    apply (Hnot c Hc). apply list_elem_of_lookup. eauto. }
  exists Xo, Xi, (np_where (np_eq y 1)), (np_where (np_eq y 0)).
  split_and!; try done.
  - apply elem_of_where_eq.
  - apply elem_of_where_eq.
  - by apply Hnot.
  - by apply Hnot.
  - intros Hnd r Hr.
    split; [by apply (Hrow 1%Z Xo) | by apply (Hrow 0%Z Xi)].
Qed.

Lemma get_sample_indices_other_label_witness :
  ∃ X_outliers X_inliers idx_out idx_in,
    _get_sample_indices X_3x2 [Fin 1; Fin 2; Fin 0] = Ok (X_outliers, X_inliers) ∧
    selects X_3x2 idx_out X_outliers ∧
    selects X_3x2 idx_in X_inliers ∧
    (∀ k, k ∈ idx_out ↔ [Fin 1; Fin 2; Fin 0] !! k = Some (Fin 1)) ∧
    (∀ k, k ∈ idx_in ↔ [Fin 1; Fin 2; Fin 0] !! k = Some (Fin 0)) ∧
    (1 ∉ idx_out) ∧ (1 ∉ idx_in) ∧
    (NoDup (rows X_3x2) → ∀ r, rows X_3x2 !! 1 = Some r →
       (r ∉ rows X_outliers) ∧ (r ∉ rows X_inliers)).
Proof.
  apply (get_sample_indices_other_label X_3x2 [Fin 1; Fin 2; Fin 0] 1 (Fin 2)).
  - reflexivity.
  - reflexivity.
  - split; discriminate.
Defined.

(** * Running computations with state and exceptions *)

Section stateE_facts.
Context {S : Type}.
Implicit Types (s : S).

Lemma bind_Ok_inv {A B} (m : stateE S A) (f : A → stateE S B) s b s' :
  (m ≫= f) s = (Ok b, s') → ∃ a s1, m s = (Ok a, s1) ∧ f a s1 = (Ok b, s').
Proof.
  unfold mbind, stateE_bind. destruct (m s) as [[a|e] s1]; [eauto | done].
Qed.

Lemma lift_Ok_inv {A} (r : result A) s a s' :
  lift r s = (Ok a, s') → r = Ok a ∧ s' = s.
Proof. unfold lift. by intros [= -> ->]. Qed.

Lemma ret_Ok_inv {A} (a a' : A) s s' :
  mret (M := stateE S) a s = (Ok a', s') → a' = a ∧ s' = s.
Proof. unfold mret, stateE_ret. by intros [= -> ->]. Qed.

Lemma lift_bind_Ok {A B} (a : A) (f : A → stateE S B) s :
  (lift (Ok a) ≫= f) s = f a s.
Proof. done. Qed.

Lemma lift_bind_Raise {A B} e (f : A → stateE S B) s :
  (lift (Raise e) ≫= f) s = (Raise e, s).
Proof. done. Qed.
Lemma bind_run_Ok {A B} (m : stateE S A) (f : A → stateE S B) s a s' :
  m s = (Ok a, s') → (m ≫= f) s = f a s'.
Proof. unfold mbind, stateE_bind. by intros ->. Qed.

Lemma bind_run_Raise {A B} (m : stateE S A) (f : A → stateE S B) s e s' :
  m s = (Raise e, s') → (m ≫= f) s = (Raise e, s').
Proof. unfold mbind, stateE_bind. by intros ->. Qed.

Lemma ret_bind {A B} (a : A) (f : A → stateE S B) s :
  (mret a ≫= f) s = f a s.
Proof. done. Qed.
End stateE_facts.

(** * The partition on references *)

Section store_facts.
Implicit Types (σ : gmap nat obj) (l X y : nat).

Lemma alloc_run o σ :
  ∃ l, alloc o σ = (Ok l, <[l := o]> σ) ∧ σ !! l = None.
Proof.
  exists (fresh (dom σ)). split; [done|].
  apply not_elem_of_dom, is_fresh.
Qed.

Lemma load_run σ l o : σ !! l = Some o → load l σ = (Ok o, σ).
Proof. unfold load. by intros ->. Qed.

Lemma ref_eq_run σ y v c :
  σ !! y = Some (Obj_vector v) →
  ∃ l, ref_eq y c σ = (Ok l, <[l := Obj_mask (np_eq v c)]> σ) ∧ σ !! l = None.
Proof.
  intros Hy. unfold ref_eq.
  rewrite (bind_run_Ok _ _ _ _ _ (load_run _ _ _ Hy)). apply alloc_run.
Qed.

Lemma ref_where_run σ m b :
  σ !! m = Some (Obj_mask b) →
  ∃ l, ref_where m σ = (Ok l, <[l := Obj_index (np_where b)]> σ) ∧ σ !! l = None.
Proof.
  intros Hm. unfold ref_where.
  rewrite (bind_run_Ok _ _ _ _ _ (load_run _ _ _ Hm)). apply alloc_run.
Qed.

Lemma ref_getitem_run σ X idx mX li :
  σ !! X = Some (Obj_matrix mX) →
  σ !! idx = Some (Obj_index li) →
  match getitem mX li with
  | Ok sub => ∃ l, ref_getitem X idx σ = (Ok l, <[l := Obj_matrix sub]> σ)
                   ∧ σ !! l = None
  | Raise e => ref_getitem X idx σ = (Raise e, σ)
  end.
Proof.
  intros HX Hidx. unfold ref_getitem.
  rewrite (bind_run_Ok _ _ _ _ _ (load_run _ _ _ HX)).
  rewrite (bind_run_Ok _ _ _ _ _ (load_run _ _ _ Hidx)).
  destruct (getitem mX li) as [sub|e].
  - rewrite (bind_run_Ok _ _ σ sub σ) by done. apply alloc_run.
  - by rewrite (bind_run_Raise _ _ σ e σ).
Qed.

(** A call on references: nothing that was in the store is changed, and the
    outcome is that of [_get_sample_indices] on the contents of [X] and [y]. *)
Lemma get_sample_indices_ref_run σ X y mX vy :
  σ !! X = Some (Obj_matrix mX) →
  σ !! y = Some (Obj_vector vy) →
  σ ⊆ (_get_sample_indices_ref X y σ).2 ∧
  returns_contents (_get_sample_indices_ref X y σ).2
    (_get_sample_indices_ref X y σ).1 (_get_sample_indices mX vy).
Proof.
  intros HX Hy. unfold _get_sample_indices_ref, _get_sample_indices.
  destruct (ref_eq_run σ y vy 1 Hy) as (m1 & Hm1 & Hf1).
  rewrite (bind_run_Ok _ _ _ _ _ Hm1).
  set (σ1 := <[m1 := _]> σ).
  assert (σ ⊆ σ1) as Hsub1 by by apply insert_subseteq.
  destruct (ref_where_run σ1 m1 (np_eq vy 1)) as (i1 & Hi1 & Hf2);
    [apply lookup_insert_eq|].
  rewrite (bind_run_Ok _ _ _ _ _ Hi1).
  set (σ2 := <[i1 := _]> σ1).
  assert (σ1 ⊆ σ2) as Hsub2 by by apply insert_subseteq.
  assert (σ ⊆ σ2) as Hsub02 by by etrans.
  pose proof (ref_getitem_run σ2 X i1 mX (np_where (np_eq vy 1))) as Hg1.
  destruct (getitem mX (np_where (np_eq vy 1))) as [Xo|e]; simpl;
    [|rewrite (bind_run_Raise _ _ _ _ _ (Hg1 (lookup_weaken _ _ _ _ HX Hsub02)
                                              (lookup_insert_eq _ _ _))); done].
  destruct Hg1 as (lo & Hlo & Hf3);
    [by eapply lookup_weaken | apply lookup_insert_eq|].
  rewrite (bind_run_Ok _ _ _ _ _ Hlo).
  set (σ3 := <[lo := _]> σ2).
  assert (σ2 ⊆ σ3) as Hsub3 by by apply insert_subseteq.
  assert (σ ⊆ σ3) as Hsub03 by by etrans.
  destruct (ref_eq_run σ3 y vy 0) as (m0 & Hm0 & Hf4);
    [by eapply lookup_weaken|].
  rewrite (bind_run_Ok _ _ _ _ _ Hm0).
  set (σ4 := <[m0 := _]> σ3).
  assert (σ3 ⊆ σ4) as Hsub4 by by apply insert_subseteq.
  destruct (ref_where_run σ4 m0 (np_eq vy 0)) as (i0 & Hi0 & Hf5);
    [apply lookup_insert_eq|].
  rewrite (bind_run_Ok _ _ _ _ _ Hi0).
  set (σ5 := <[i0 := _]> σ4).
  assert (σ4 ⊆ σ5) as Hsub5 by by apply insert_subseteq.
  assert (σ3 ⊆ σ5) as Hsub35 by by etrans.
  assert (σ ⊆ σ5) as Hsub05 by by etrans.
  pose proof (ref_getitem_run σ5 X i0 mX (np_where (np_eq vy 0))) as Hg0.
  destruct (getitem mX (np_where (np_eq vy 0))) as [Xi|e]; simpl;
    [|rewrite (bind_run_Raise _ _ _ _ _ (Hg0 (lookup_weaken _ _ _ _ HX Hsub05)
                                              (lookup_insert_eq _ _ _))); done].
  destruct Hg0 as (li & Hli & Hf6);
    [by eapply lookup_weaken | apply lookup_insert_eq|].
  rewrite (bind_run_Ok _ _ _ _ _ Hli). simpl.
  assert (σ5 ⊆ <[li := Obj_matrix Xi]> σ5) as Hsub6 by by apply insert_subseteq.
  split_and!.
  - by etrans.
  - apply (lookup_weaken σ3); [apply lookup_insert_eq | by etrans].
  - apply lookup_insert_eq.
Qed.
End store_facts.

(** C8: [_get_sample_indices] is deterministic and free of side effects.
    Called twice on the same references [X] and [y], it leaves every object
    of the store as it was, [X] and [y] among them, after each call, and the
    two calls have the same outcome: the same exception, or references to
    arrays with the same contents, which are those that
    [_get_sample_indices] computes from the contents of [X] and [y]. *)
Theorem get_sample_indices_ref_deterministic (σ : gmap nat obj) (X y : nat)
    (mX : ndarray2) (vy : list scalar) :
  σ !! X = Some (Obj_matrix mX) →
  σ !! y = Some (Obj_vector vy) →
  let run1 := _get_sample_indices_ref X y σ in
  let run2 := _get_sample_indices_ref X y run1.2 in
  σ ⊆ run1.2 ∧ run1.2 ⊆ run2.2 ∧
  run1.2 !! X = Some (Obj_matrix mX) ∧ run1.2 !! y = Some (Obj_vector vy) ∧
  run2.2 !! X = Some (Obj_matrix mX) ∧ run2.2 !! y = Some (Obj_vector vy) ∧
  returns_contents run1.2 run1.1 (_get_sample_indices mX vy) ∧
  returns_contents run2.2 run2.1 (_get_sample_indices mX vy) ∧
  same_outcome run1.2 run1.1 run2.2 run2.1.
Proof.
  intros HX Hy run1 run2.
  destruct (get_sample_indices_ref_run σ X y mX vy HX Hy) as [Hsub1 Hret1].
  fold run1 in Hsub1, Hret1.
  assert (run1.2 !! X = Some (Obj_matrix mX)) as HX1 by by eapply lookup_weaken.
  assert (run1.2 !! y = Some (Obj_vector vy)) as Hy1 by by eapply lookup_weaken.
  destruct (get_sample_indices_ref_run run1.2 X y mX vy HX1 Hy1) as [Hsub2 Hret2].
  fold run2 in Hsub2, Hret2.
  split_and!; try done.
  - by eapply lookup_weaken.
  - by eapply lookup_weaken.
  - unfold returns_contents, same_outcome in *.
    destruct (_get_sample_indices mX vy) as [[Xo Xi]|e],
      (run1.1) as [[o1 i1]|e1], (run2.1) as [[o2 i2]|e2]; try done.
    + destruct Hret1 as [Ho1 Hi1], Hret2 as [Ho2 Hi2].
      rewrite Ho1, Hi1, Ho2, Hi2. by split_and!.
    + congruence.
Qed.

Lemma get_sample_indices_ref_deterministic_witness :
  let run1 := _get_sample_indices_ref 0 1 store_example in
  let run2 := _get_sample_indices_ref 0 1 run1.2 in
  store_example ⊆ run1.2 ∧ run1.2 ⊆ run2.2 ∧
  run1.2 !! 0 = Some (Obj_matrix X_3x2) ∧
  run1.2 !! 1 = Some (Obj_vector [Fin 1; Fin 0; Fin 2]) ∧
  run2.2 !! 0 = Some (Obj_matrix X_3x2) ∧
  run2.2 !! 1 = Some (Obj_vector [Fin 1; Fin 0; Fin 2]) ∧
  returns_contents run1.2 run1.1
    (_get_sample_indices X_3x2 [Fin 1; Fin 0; Fin 2]) ∧
  returns_contents run2.2 run2.1
    (_get_sample_indices X_3x2 [Fin 1; Fin 0; Fin 2]) ∧
  same_outcome run1.2 run1.1 run2.2 run2.1.
Proof.
  apply (get_sample_indices_ref_deterministic store_example 0 1 X_3x2
           [Fin 1; Fin 0; Fin 2]).
  - reflexivity.
  - reflexivity.
Defined.

(** The two calls of the example return different references to equal
    arrays. *)
Example get_sample_indices_ref_twice :
  (_get_sample_indices_ref 0 1 store_example).1 = Ok (4, 7) ∧
  (_get_sample_indices_ref 0 1 (_get_sample_indices_ref 0 1 store_example).2).1
    = Ok (10, 13).
Proof. split; vm_compute; reflexivity. Qed.

(** * Properties of [visualize] *)

Lemma call_Ok_inv c log a log' :
  call c log = (Ok a, log') → log' = log ++ [c].
Proof. unfold call. by intros [= _ <-]. Qed.

Lemma call_bind {B} c (f : unit → plt B) log :
  (call c ≫= f) log = f () (log ++ [c]).
Proof. done. Qed.

Lemma add_sub_plot_Ok_inv X_inliers X_outliers title ic oc log log' :
  _add_sub_plot X_inliers X_outliers title ic oc log = (Ok (), log') →
  ∃ xi yi xo yo,
    column X_inliers 0 = Ok xi ∧ column X_inliers 1 = Ok yi ∧
    column X_outliers 0 = Ok xo ∧ column X_outliers 1 = Ok yo ∧
    log' = log ++ panel_calls xi yi xo yo title ic oc.
Proof.
  unfold _add_sub_plot. rewrite call_bind. cbv beta.
  destruct (column X_inliers 0) as [xi|]; [|done]. rewrite lift_bind_Ok.
  destruct (column X_inliers 1) as [yi|]; [|done]. rewrite lift_bind_Ok.
  rewrite call_bind. cbv beta.
  destruct (column X_outliers 0) as [xo|]; [|done]. rewrite lift_bind_Ok.
  destruct (column X_outliers 1) as [yo|]; [|done]. rewrite lift_bind_Ok.
  repeat (rewrite call_bind; cbv beta). intros ->%call_Ok_inv.
  exists xi, yi, xo, yo. split_and!; try done.
  unfold panel_calls. by rewrite <- !app_assoc.
Qed.

Lemma add_sub_plot_Ok X_inliers X_outliers title ic oc log xi yi xo yo :
  column X_inliers 0 = Ok xi → column X_inliers 1 = Ok yi →
  column X_outliers 0 = Ok xo → column X_outliers 1 = Ok yo →
  _add_sub_plot X_inliers X_outliers title ic oc log =
    (Ok (), log ++ panel_calls xi yi xo yo title ic oc).
Proof.
  intros Hxi Hyi Hxo Hyo. unfold _add_sub_plot.
  rewrite call_bind. cbv beta.
  rewrite Hxi, lift_bind_Ok, Hyi, lift_bind_Ok, call_bind. cbv beta.
  rewrite Hxo, lift_bind_Ok, Hyo, lift_bind_Ok.
  repeat (rewrite call_bind; cbv beta).
  unfold call, panel_calls. by rewrite <- !app_assoc.
Qed.

(** A panel is drawn after whatever was drawn before. *)
Lemma add_sub_plot_frame X_inliers X_outliers title ic oc log log' :
  _add_sub_plot X_inliers X_outliers title ic oc log = (Ok (), log') →
  ∃ d, _add_sub_plot X_inliers X_outliers title ic oc [] = (Ok (), d) ∧
       log' = log ++ d ∧
       ∃ xi yi xo yo, d = panel_calls xi yi xo yo title ic oc.
Proof.
  intros (xi & yi & xo & yo & Hxi & Hyi & Hxo & Hyo & ->)%add_sub_plot_Ok_inv.
  exists (panel_calls xi yi xo yo title ic oc). split_and!; [|done|eauto].
  by rewrite (add_sub_plot_Ok _ _ _ _ _ [] xi yi xo yo).
Qed.

Lemma check_array_Ok X X' : check_array X = Ok X' → X' = X.
Proof.
  unfold check_array. destruct (_assert_all_finite _); [|done]. simpl.
  repeat case_decide; try done. by intros [= <-].
Qed.

Lemma check_consistent_length_Ok a b :
  check_consistent_length [a; b] = Ok () ↔ a = b.
Proof.
  unfold check_consistent_length. simpl.
  destruct (decide_rel elem_of a [b]) as [Hin|Hnin]; simpl.
  - apply list_elem_of_singleton in Hin. done.
  - rewrite list_elem_of_singleton in Hnin. split; [done | contradiction].
Qed.

Lemma check_consistent_length_Raise a b e :
  check_consistent_length [a; b] = Raise e →
  a ≠ b ∧ e = ValueError (Inconsistent_numbers_of_samples [a; b]).
Proof.
  intros He. split.
  - intros Hab. apply check_consistent_length_Ok in Hab. congruence.
  - unfold check_consistent_length in He. case_decide; congruence.
Qed.

Lemma check_X_y_Ok X y X' y' :
  check_X_y X y = Ok (X', y') →
  X' = X ∧ check_array X = Ok X ∧ column_or_1d y = Ok y' ∧
  _assert_all_finite y' = Ok () ∧ n_samples X = length y'.
Proof.
  unfold check_X_y. destruct (check_array X) as [X1|] eqn:HX; [|done].
  apply check_array_Ok in HX as HX1. subst X1. simpl.
  destruct (column_or_1d y) as [y1|]; simpl; [|done].
  destruct (_assert_all_finite y1) as [[]|] eqn:Hfin; simpl; [|done].
  destruct (check_consistent_length _) as [[]|] eqn:Hlen; simpl; [|done].
  intros [= <- <-]. apply check_consistent_length_Ok in Hlen. done.
Qed.

(** What a call of [visualize] that returns has done. *)
Lemma visualize_Ok_inv clf_name X_train y_train X_test y_test
    y_train_pred y_test_pred show_figure save_figure log log' :
  visualize clf_name X_train y_train X_test y_test y_train_pred y_test_pred
    show_figure save_figure log = (Ok (), log') →
  ∃ ytr yte ytrp ytep o1 i1 o2 i2 o3 i3 o4 i4 d1 d2 d3 d4,
    check_X_y X_train y_train = Ok (X_train, ytr) ∧
    check_X_y X_test y_test = Ok (X_test, yte) ∧
    column_or_1d y_test_pred = Ok ytep ∧
    column_or_1d y_train_pred = Ok ytrp ∧
    n_features X_train = 2 ∧ n_features X_test = 2 ∧
    length ytr = length ytrp ∧ length yte = length ytep ∧
    _get_sample_indices X_train ytr = Ok (o1, i1) ∧
    _get_sample_indices X_train ytrp = Ok (o2, i2) ∧
    _get_sample_indices X_test yte = Ok (o3, i3) ∧
    _get_sample_indices X_test ytep = Ok (o4, i4) ∧
    _add_sub_plot i1 o1 "Train set ground truth" "blue" "orange" []
      = (Ok (), d1) ∧
    _add_sub_plot i2 o2 "Train set prediction" "blue" "orange" []
      = (Ok (), d2) ∧
    _add_sub_plot i3 o3 "Test set ground truth" "green" "red" []
      = (Ok (), d3) ∧
    _add_sub_plot i4 o4 "Test set prediction" "green" "red" []
      = (Ok (), d4) ∧
    log' = log
      ++ [Plt_figure (12, 10); Plt_suptitle ("Demo of " +:+ clf_name) 15]
      ++ [Fig_add_subplot 221] ++ d1 ++ [Fig_add_subplot 222] ++ d2
      ++ [Fig_add_subplot 223] ++ d3 ++ [Fig_add_subplot 224] ++ d4
      ++ output_calls clf_name show_figure save_figure.
Proof.
  unfold visualize.
  destruct (check_X_y X_train y_train) as [[X1 ytr]|] eqn:H1; [|done].
  destruct (check_X_y_Ok _ _ _ _ H1) as (-> & _ & _ & _ & _).
  rewrite lift_bind_Ok. cbv beta iota.
  destruct (check_X_y X_test y_test) as [[X2 yte]|] eqn:H2; [|done].
  destruct (check_X_y_Ok _ _ _ _ H2) as (-> & _ & _ & _ & _).
  rewrite lift_bind_Ok. cbv beta iota.
  destruct (column_or_1d y_test_pred) as [ytep|] eqn:H3; [|done].
  rewrite lift_bind_Ok.
  destruct (column_or_1d y_train_pred) as [ytrp|] eqn:H4; [|done].
  rewrite lift_bind_Ok.
  case_decide as Hshape; [done|]. rewrite ret_bind.
  destruct (check_consistent_length [length ytr; length ytrp])
    as [[]|] eqn:H5; [|done].
  rewrite lift_bind_Ok.
  destruct (check_consistent_length [length yte; length ytep])
    as [[]|] eqn:H6; [|done].
  rewrite lift_bind_Ok.
  apply check_consistent_length_Ok in H5, H6.
  destruct (_get_sample_indices X_train ytr) as [[o1 i1]|] eqn:P1; [|done].
  rewrite lift_bind_Ok. cbv beta iota.
  destruct (_get_sample_indices X_train ytrp) as [[o2 i2]|] eqn:P2; [|done].
  rewrite lift_bind_Ok. cbv beta iota.
  destruct (_get_sample_indices X_test yte) as [[o3 i3]|] eqn:P3; [|done].
  rewrite lift_bind_Ok. cbv beta iota.
  destruct (_get_sample_indices X_test ytep) as [[o4 i4]|] eqn:P4; [|done].
  rewrite lift_bind_Ok. cbv beta iota.
  repeat (rewrite call_bind; cbv beta).
  intros ([] & s1 & (d1 & Hd1 & -> & _)%add_sub_plot_frame & H)%bind_Ok_inv.
  rewrite call_bind in H. cbv beta in H.
  apply bind_Ok_inv in H as
    ([] & s2 & (d2 & Hd2 & -> & _)%add_sub_plot_frame & H).
  rewrite call_bind in H. cbv beta in H.
  apply bind_Ok_inv in H as
    ([] & s3 & (d3 & Hd3 & -> & _)%add_sub_plot_frame & H).
  rewrite call_bind in H. cbv beta in H.
  apply bind_Ok_inv in H as
    ([] & s4 & (d4 & Hd4 & -> & _)%add_sub_plot_frame & H).
  exists ytr, yte, ytrp, ytep, o1, i1, o2, i2, o3, i3, o4, i4, d1, d2, d3, d4.
  split_and!; try done.
  - destruct (decide (n_features X_train = 2)); [done|]. destruct Hshape; auto.
  - destruct (decide (n_features X_test = 2)); [done|]. destruct Hshape; auto.
  - unfold output_calls.
    destruct save_figure, show_figure; injection H as <-;
      rewrite <- ?app_assoc; simpl; rewrite <- ?app_assoc; simpl;
      rewrite ?app_nil_r; done.
Qed.

Lemma titles_app l1 l2 : titles (l1 ++ l2) = titles l1 ++ titles l2.
Proof. apply omap_app. Qed.

Lemma series_app l1 l2 : series (l1 ++ l2) = series l1 ++ series l2.
Proof. apply omap_app. Qed.

Lemma titles_panel xi yi xo yo title ic oc :
  titles (panel_calls xi yi xo yo title ic oc) = [title].
Proof. reflexivity. Qed.

Lemma series_panel xi yi xo yo title ic oc :
  series (panel_calls xi yi xo yo title ic oc) =
    [("inliers", ic); ("outliers", oc)].
Proof. reflexivity. Qed.

Lemma titles_output clf_name show_figure save_figure :
  titles (output_calls clf_name show_figure save_figure) = [].
Proof. by destruct show_figure, save_figure. Qed.

Lemma series_output clf_name show_figure save_figure :
  series (output_calls clf_name show_figure save_figure) = [].
Proof. by destruct show_figure, save_figure. Qed.


(** One panel, drawn on an empty drawing, is its seven calls. *)
Lemma add_sub_plot_panel X_inliers X_outliers title ic oc d :
  _add_sub_plot X_inliers X_outliers title ic oc [] = (Ok (), d) →
  ∃ xi yi xo yo, d = panel_calls xi yi xo yo title ic oc.
Proof.
  intros (xi & yi & xo & yo & _ & _ & _ & _ & ->)%add_sub_plot_Ok_inv.
  by exists xi, yi, xo, yo.
Qed.

(** C6: a call of [visualize] that returns has drawn exactly four panels,
    each by one call of [_add_sub_plot] after the matching [add_subplot], in
    the order train ground truth (221), train prediction (222), test ground
    truth (223), test prediction (224); the panels get the inliers and the
    outliers that [_get_sample_indices] returns for the train or test matrix
    with the true or the predicted labels, the colours blue and orange for
    the train panels and green and red for the test panels, and the titles
    Train set ground truth, Train set prediction, Test set ground truth and
    Test set prediction. *)
Theorem visualize_four_panels (clf_name : string)
    (X_train : ndarray2) (y_train : labels)
    (X_test : ndarray2) (y_test : labels) (y_train_pred y_test_pred : labels)
    (show_figure save_figure : bool) (log log' : list plt_call) :
  visualize clf_name X_train y_train X_test y_test y_train_pred y_test_pred
    show_figure save_figure log = (Ok (), log') →
  ∃ ytr yte ytrp ytep o1 i1 o2 i2 o3 i3 o4 i4 d1 d2 d3 d4 drawn,
    column_or_1d y_train = Ok ytr ∧ column_or_1d y_train_pred = Ok ytrp ∧
    column_or_1d y_test = Ok yte ∧ column_or_1d y_test_pred = Ok ytep ∧
    _get_sample_indices X_train ytr = Ok (o1, i1) ∧
    _get_sample_indices X_train ytrp = Ok (o2, i2) ∧
    _get_sample_indices X_test yte = Ok (o3, i3) ∧
    _get_sample_indices X_test ytep = Ok (o4, i4) ∧
    _add_sub_plot i1 o1 "Train set ground truth" "blue" "orange" []
      = (Ok (), d1) ∧
    _add_sub_plot i2 o2 "Train set prediction" "blue" "orange" []
      = (Ok (), d2) ∧
    _add_sub_plot i3 o3 "Test set ground truth" "green" "red" []
      = (Ok (), d3) ∧
    _add_sub_plot i4 o4 "Test set prediction" "green" "red" []
      = (Ok (), d4) ∧
    log' = log ++ drawn ∧
    drawn =
      [Plt_figure (12, 10); Plt_suptitle ("Demo of " +:+ clf_name) 15]
      ++ [Fig_add_subplot 221] ++ d1 ++ [Fig_add_subplot 222] ++ d2
      ++ [Fig_add_subplot 223] ++ d3 ++ [Fig_add_subplot 224] ++ d4
      ++ output_calls clf_name show_figure save_figure ∧
    titles drawn =
      ["Train set ground truth"; "Train set prediction";
       "Test set ground truth"; "Test set prediction"] ∧
    series drawn =
      [("inliers", "blue"); ("outliers", "orange");
       ("inliers", "blue"); ("outliers", "orange");
       ("inliers", "green"); ("outliers", "red");
       ("inliers", "green"); ("outliers", "red")].
Proof.
  intros (ytr & yte & ytrp & ytep & o1 & i1 & o2 & i2 & o3 & i3 & o4 & i4
          & d1 & d2 & d3 & d4 & H1 & H2 & H3 & H4 & _ & _ & _ & _
          & P1 & P2 & P3 & P4 & D1 & D2 & D3 & D4 & Hlog)%visualize_Ok_inv.
  apply check_X_y_Ok in H1 as (_ & _ & H1 & _).
  apply check_X_y_Ok in H2 as (_ & _ & H2 & _).
  destruct (add_sub_plot_panel _ _ _ _ _ _ D1) as (? & ? & ? & ? & E1).
  destruct (add_sub_plot_panel _ _ _ _ _ _ D2) as (? & ? & ? & ? & E2).
  destruct (add_sub_plot_panel _ _ _ _ _ _ D3) as (? & ? & ? & ? & E3).
  destruct (add_sub_plot_panel _ _ _ _ _ _ D4) as (? & ? & ? & ? & E4).
  exists ytr, yte, ytrp, ytep, o1, i1, o2, i2, o3, i3, o4, i4, d1, d2, d3, d4.
  eexists.
  do 12 (split; [assumption|]).
  split; [exact Hlog|]. split; [reflexivity|].
  rewrite !titles_app, !series_app, titles_output, series_output.
  rewrite E1, E2, E3, E4, !titles_panel, !series_panel.
  split; reflexivity.
Qed.




Lemma LOF_run :
  visualize "LOF" X_3x2 y_3 X_3x2 y_3 y_3_pred y_3_column false true []
    = (Ok (), LOF_log).
Proof. vm_compute. reflexivity. Qed.

Lemma visualize_four_panels_witness :
  ∃ ytr yte ytrp ytep o1 i1 o2 i2 o3 i3 o4 i4 d1 d2 d3 d4 drawn,
    column_or_1d y_3 = Ok ytr ∧ column_or_1d y_3_pred = Ok ytrp ∧
    column_or_1d y_3 = Ok yte ∧ column_or_1d y_3_column = Ok ytep ∧
    _get_sample_indices X_3x2 ytr = Ok (o1, i1) ∧
    _get_sample_indices X_3x2 ytrp = Ok (o2, i2) ∧
    _get_sample_indices X_3x2 yte = Ok (o3, i3) ∧
    _get_sample_indices X_3x2 ytep = Ok (o4, i4) ∧
    _add_sub_plot i1 o1 "Train set ground truth" "blue" "orange" []
      = (Ok (), d1) ∧
    _add_sub_plot i2 o2 "Train set prediction" "blue" "orange" []
      = (Ok (), d2) ∧
    _add_sub_plot i3 o3 "Test set ground truth" "green" "red" []
      = (Ok (), d3) ∧
    _add_sub_plot i4 o4 "Test set prediction" "green" "red" []
      = (Ok (), d4) ∧
    LOF_log = [] ++ drawn ∧
    drawn =
      [Plt_figure (12, 10); Plt_suptitle ("Demo of " +:+ "LOF") 15]
      ++ [Fig_add_subplot 221] ++ d1 ++ [Fig_add_subplot 222] ++ d2
      ++ [Fig_add_subplot 223] ++ d3 ++ [Fig_add_subplot 224] ++ d4
      ++ output_calls "LOF" false true ∧
    titles drawn =
      ["Train set ground truth"; "Train set prediction";
       "Test set ground truth"; "Test set prediction"] ∧
    series drawn =
      [("inliers", "blue"); ("outliers", "orange");
       ("inliers", "blue"); ("outliers", "orange");
       ("inliers", "green"); ("outliers", "red");
       ("inliers", "green"); ("outliers", "red")].
Proof.
  apply (visualize_four_panels "LOF" X_3x2 y_3 X_3x2 y_3 y_3_pred y_3_column
           false true [] LOF_log).
  vm_compute. reflexivity.
Defined.


(** The scenario of the specification: the only call that writes or shows
    is the one that saves [LOF.png]. *)
Example LOF_scenario :
  filter (λ c, is_output c = true) LOF_log = [Plt_savefig "LOF.png" 300].
Proof. vm_compute. reflexivity. Qed.

(** ** Validation errors of [visualize] *)

(** C4, as stated, fails when an earlier check fails first: with a train
    matrix of three columns and one row but two train labels, the call
    raises the error of [check_X_y] about inconsistent numbers of samples,
    not the error about the shape. *)
Lemma visualize_3_columns_other_error :
  n_features X_1x3 ≠ 2 ∧
  visualize "LOF" X_1x3 (Labels1d [Fin 0; Fin 1]) X_1x2 (Labels1d [Fin 0])
    (Labels1d [Fin 0]) (Labels1d [Fin 0]) true false []
  = (Raise (ValueError (Inconsistent_numbers_of_samples [1; 2])), []) ∧
  ¬ shape_error (ValueError (Inconsistent_numbers_of_samples [1; 2])).
Proof.
  split_and!.
  - vm_compute. lia.
  - vm_compute. reflexivity.
  - intros [msg [=]].
Qed.

(** C4, amended: when the checks made before it pass ([check_X_y] on both
    pairs and [column_or_1d] on both predictions), a train or test matrix
    whose number of columns is not 2 makes the call raise the shape error
    with nothing drawn; when the train matrix is such a matrix, the message
    includes its shape. *)
Theorem visualize_not_2d (clf_name : string)
    (X_train : ndarray2) (y_train : labels)
    (X_test : ndarray2) (y_test : labels) (y_train_pred y_test_pred : labels)
    (show_figure save_figure : bool) (log : list plt_call) :
  is_Ok (check_X_y X_train y_train) →
  is_Ok (check_X_y X_test y_test) →
  is_Ok (column_or_1d y_test_pred) →
  is_Ok (column_or_1d y_train_pred) →
  n_features X_train ≠ 2 ∨ n_features X_test ≠ 2 →
  ∃ msg,
    visualize clf_name X_train y_train X_test y_test y_train_pred y_test_pred
      show_figure save_figure log
    = (Raise (ValueError (Not_2d_for_visualization msg)), log) ∧
    (n_features X_train ≠ 2 → includes msg (str_shape (shape X_train))).
Proof.
  intros [[X1 ytr] H1] [[X2 yte] H2] [ytep H3] [ytrp H4] Hshape.
  destruct (check_X_y_Ok _ _ _ _ H1) as (-> & _).
  destruct (check_X_y_Ok _ _ _ _ H2) as (-> & _).
  exists (not_2d_message (shape X_train)). split.
  - unfold visualize.
    rewrite H1, lift_bind_Ok. cbv beta iota.
    rewrite H2, lift_bind_Ok. cbv beta iota.
    rewrite H3, lift_bind_Ok, H4, lift_bind_Ok.
    rewrite decide_True by done. by rewrite lift_bind_Raise.
  - intros _. unfold includes, not_2d_message. eauto.
Qed.

Lemma visualize_not_2d_witness :
  ∃ msg,
    visualize "LOF" X_1x3 (Labels1d [Fin 0]) X_1x2 (Labels1d [Fin 0])
      (Labels1d [Fin 0]) (Labels1d [Fin 0]) true false []
    = (Raise (ValueError (Not_2d_for_visualization msg)), []) ∧
    (n_features X_1x3 ≠ 2 → includes msg (str_shape (shape X_1x3))).
Proof.
  apply (visualize_not_2d "LOF" X_1x3 (Labels1d [Fin 0]) X_1x2
           (Labels1d [Fin 0]) (Labels1d [Fin 0]) (Labels1d [Fin 0])
           true false []).
  - eexists. vm_compute. reflexivity.
  - eexists. vm_compute. reflexivity.
  - eexists. reflexivity.
  - eexists. reflexivity.
  - left. vm_compute. lia.
Defined.

(** The message names the shape of the train matrix also when only the
    test matrix has the wrong number of columns. *)
Example visualize_test_not_2d_message :
  visualize "LOF" X_1x2 (Labels1d [Fin 0]) X_1x3 (Labels1d [Fin 0])
    (Labels1d [Fin 0]) (Labels1d [Fin 0]) true false []
  = (Raise (ValueError (Not_2d_for_visualization
       "Input data has to be 2-d for visualization. The input data has (1, 2).")),
     []).
Proof. vm_compute. reflexivity. Qed.

Lemma column_or_1d_length y v :
  wf_labels y → column_or_1d y = Ok v → length v = _num_samples y.
Proof.
  destruct y as [v'|m]; simpl.
  - by intros _ [= ->].
  - intros Hwf. case_decide as Hc; [|done]. intros [= <-].
    unfold wf_ndarray2 in Hwf. rewrite Hc in Hwf. unfold n_samples.
    induction Hwf as [|r rs Hr _ IH]; [done|].
    simpl. rewrite length_app, Hr, IH. done.
Qed.

(** On an array and labels that are valid on their own, [check_X_y] can only
    complain about their lengths. *)
Lemma check_X_y_Raise X y e :
  is_Ok (check_array X) → labels_valid y →
  check_X_y X y = Raise e → length_error e.
Proof.
  intros [X' HX] (v & Hv & Hfin). unfold check_X_y.
  rewrite HX. simpl. rewrite Hv. simpl. rewrite Hfin. simpl.
  destruct (check_consistent_length _) as [[]|e'] eqn:E; simpl; [done|].
  intros [= <-]. apply check_consistent_length_Raise in E as [_ ->].
  by eexists.
Qed.

(** C5, as stated, fails when the shape check comes first: with a train
    matrix of three columns, and train predictions longer than the train
    labels, the call raises the shape error and not a length error. *)
Lemma visualize_shape_check_precedes_lengths :
  _num_samples (Labels1d [Fin 0; Fin 1]) ≠ _num_samples (Labels1d [Fin 0]) ∧
  visualize "LOF" X_1x3 (Labels1d [Fin 0]) X_1x2 (Labels1d [Fin 0])
    (Labels1d [Fin 0; Fin 1]) (Labels1d [Fin 0]) true false []
  = (Raise (ValueError (Not_2d_for_visualization
       "Input data has to be 2-d for visualization. The input data has (1, 3).")),
     []) ∧
  ¬ length_error (ValueError (Not_2d_for_visualization
       "Input data has to be 2-d for visualization. The input data has (1, 3).")).
Proof.
  split_and!.
  - vm_compute. lia.
  - vm_compute. reflexivity.
  - intros [lengths [=]].
Qed.

(** What the validations decide: the exception of the first one that
    fails is raised with nothing drawn; when none fails, the checks of
    [visualize] have all passed. *)
Lemma visualize_validations clf_name X_train y_train X_test y_test
    y_train_pred y_test_pred show_figure save_figure log :
  match first_error (validations X_train y_train X_test y_test
                       y_train_pred y_test_pred) with
  | Some e =>
      visualize clf_name X_train y_train X_test y_test
        y_train_pred y_test_pred show_figure save_figure log = (Raise e, log)
  | None =>
      ∃ ytr yte ytrp ytep,
        check_X_y X_train y_train = Ok (X_train, ytr) ∧
        check_X_y X_test y_test = Ok (X_test, yte) ∧
        column_or_1d y_test_pred = Ok ytep ∧
        column_or_1d y_train_pred = Ok ytrp ∧
        n_features X_train = 2 ∧ n_features X_test = 2 ∧
        length ytr = length ytrp ∧ length yte = length ytep
  end.
Proof.
  unfold validations, visualize.
  destruct (check_X_y X_train y_train) as [[X1 ytr]|e1] eqn:H1; simpl;
    [|done].
  destruct (check_X_y_Ok _ _ _ _ H1) as (-> & _ & C1 & _).
  rewrite lift_bind_Ok. cbv beta iota.
  destruct (check_X_y X_test y_test) as [[X2 yte]|e2] eqn:H2; simpl;
    [|done].
  destruct (check_X_y_Ok _ _ _ _ H2) as (-> & _ & C2 & _).
  rewrite lift_bind_Ok. cbv beta iota.
  destruct (column_or_1d y_test_pred) as [ytep|e3] eqn:C4; simpl; [|done].
  rewrite lift_bind_Ok.
  destruct (column_or_1d y_train_pred) as [ytrp|e4] eqn:C3; simpl; [|done].
  rewrite lift_bind_Ok.
  case_decide as Hs; simpl; [done|]. rewrite ret_bind.
  rewrite C1, C2. simpl.
  destruct (check_consistent_length [length ytr; length ytrp])
    as [[]|e5] eqn:H5; simpl; [|done].
  rewrite lift_bind_Ok.
  destruct (check_consistent_length [length yte; length ytep])
    as [[]|e6] eqn:H6; simpl; [|done].
  apply check_consistent_length_Ok in H5, H6.
  exists ytr, yte, ytrp, ytep. split_and!; try done.
  - destruct (decide (n_features X_train = 2)); [done|]. destruct Hs; auto.
  - destruct (decide (n_features X_test = 2)); [done|]. destruct Hs; auto.
Qed.

(** When the inputs are valid apart from their lengths, a validation can
    only fail on the lengths. *)
Lemma first_error_valid_kind X_train y_train X_test y_test
    y_train_pred y_test_pred e :
  is_Ok (check_array X_train) → is_Ok (check_array X_test) →
  n_features X_train = 2 → n_features X_test = 2 →
  labels_valid y_train → labels_valid y_test →
  is_Ok (column_or_1d y_train_pred) → is_Ok (column_or_1d y_test_pred) →
  first_error (validations X_train y_train X_test y_test
                 y_train_pred y_test_pred) = Some e →
  length_error e.
Proof.
  intros A1 A2 F1 F2 V1 V2 [ytrp C3] [ytep C4]. unfold validations.
  destruct (check_X_y X_train y_train) as [[X1 ytr]|e1] eqn:H1; simpl.
  2: { intros [= <-]. by apply (check_X_y_Raise X_train y_train). }
  destruct (check_X_y_Ok _ _ _ _ H1) as (_ & _ & C1 & _).
  destruct (check_X_y X_test y_test) as [[X2 yte]|e2] eqn:H2; simpl.
  2: { intros [= <-]. by apply (check_X_y_Raise X_test y_test). }
  destruct (check_X_y_Ok _ _ _ _ H2) as (_ & _ & C2 & _).
  rewrite C4, C3, C1, C2. simpl.
  rewrite decide_False by (intros [?|?]; done). simpl.
  destruct (check_consistent_length [length ytr; length ytrp])
    as [[]|e5] eqn:H5; simpl.
  2: { intros [= <-]. apply check_consistent_length_Raise in H5 as [_ ->].
       by eexists. }
  destruct (check_consistent_length [length yte; length ytep])
    as [[]|e6] eqn:H6; simpl; [done|].
  intros [= <-]. apply check_consistent_length_Raise in H6 as [_ ->].
  by eexists.
Qed.

(** C5, amended: when the train labels are not as long as the train matrix
    has rows, or the train or test labels are not as long as their
    predictions, the call raises with nothing drawn.  The exception is that
    of the validation that fails first, in the order in which [visualize]
    validates; it is the error about inconsistent lengths whenever the
    other checks pass: both matrices pass [check_array] and have two
    columns, the labels are flat and finite, the predictions are flat. *)
Theorem visualize_length_mismatch (clf_name : string)
    (X_train : ndarray2) (y_train : labels)
    (X_test : ndarray2) (y_test : labels) (y_train_pred y_test_pred : labels)
    (show_figure save_figure : bool) (log : list plt_call) :
  wf_labels y_train → wf_labels y_train_pred →
  wf_labels y_test → wf_labels y_test_pred →
  _num_samples y_train ≠ n_samples X_train
  ∨ _num_samples y_train ≠ _num_samples y_train_pred
  ∨ _num_samples y_test ≠ _num_samples y_test_pred →
  ∃ e,
    visualize clf_name X_train y_train X_test y_test y_train_pred y_test_pred
      show_figure save_figure log = (Raise e, log) ∧
    first_error (validations X_train y_train X_test y_test
                   y_train_pred y_test_pred) = Some e ∧
    (is_Ok (check_array X_train) → is_Ok (check_array X_test) →
     n_features X_train = 2 → n_features X_test = 2 →
     labels_valid y_train → labels_valid y_test →
     is_Ok (column_or_1d y_train_pred) → is_Ok (column_or_1d y_test_pred) →
     length_error e).
Proof.
  intros W1 W2 W3 W4 Hmis.
  pose proof (visualize_validations clf_name X_train y_train X_test y_test
                y_train_pred y_test_pred show_figure save_figure log) as Hv.
  destruct (first_error _) as [e|] eqn:Hfe.
  - exists e. split_and!; [done | done |].
    intros A1 A2 F1 F2 V1 V2 P1 P2.
    by apply (first_error_valid_kind X_train y_train X_test y_test
                y_train_pred y_test_pred e).
  - exfalso.
    destruct Hv as (ytr & yte & ytrp & ytep & H1 & H2 & C4 & C3 & _ & _
                    & L1 & L2).
    destruct (check_X_y_Ok _ _ _ _ H1) as (_ & _ & C1 & _ & N1).
    destruct (check_X_y_Ok _ _ _ _ H2) as (_ & _ & C2 & _ & N2).
    apply column_or_1d_length in C1, C2, C3, C4; try done.
    lia.
Qed.

Lemma visualize_length_mismatch_witness :
  ∃ e,
    visualize "LOF" X_3x2 y_3 X_3x2 y_3 (Labels1d [Fin 0]) y_3_column
      true false [] = (Raise e, []) ∧
    first_error (validations X_3x2 y_3 X_3x2 y_3 (Labels1d [Fin 0])
                   y_3_column) = Some e ∧
    (is_Ok (check_array X_3x2) → is_Ok (check_array X_3x2) →
     n_features X_3x2 = 2 → n_features X_3x2 = 2 →
     labels_valid y_3 → labels_valid y_3 →
     is_Ok (column_or_1d (Labels1d [Fin 0])) →
     is_Ok (column_or_1d y_3_column) →
     length_error e).
Proof.
  apply (visualize_length_mismatch "LOF" X_3x2 y_3 X_3x2 y_3
           (Labels1d [Fin 0]) y_3_column true false []).
  - exact I.
  - exact I.
  - exact I.
  - unfold wf_labels, wf_ndarray2. simpl. repeat constructor.
  - right. left. vm_compute. lia.
Defined.

(** The outcome of the example: the lengths 3 and 1 are reported. *)
Example visualize_reports_lengths :
  visualize "LOF" X_3x2 y_3 X_3x2 y_3 (Labels1d [Fin 0]) y_3_column
    true false []
  = (Raise (ValueError (Inconsistent_numbers_of_samples [3; 1])), []).
Proof. vm_compute. reflexivity. Qed.

(** * Further properties of [_add_sub_plot] *)

Lemma column_Ok_inv X j c :
  column X j = Ok c → Forall2 (λ r v, r !! j = Some v) (rows X) c.
Proof.
  unfold column. case_decide; [|done].
  generalize (rows X) as rs. intros rs. revert c.
  induction rs as [|r rs IH]; intros c; simpl.
  - intros [= <-]. constructor.
  - destruct (r !! j) as [v|] eqn:Hr; simpl; [|done].
    destruct (mapM _ rs) as [c'|] eqn:Hc; simpl; [|done].
    intros [= <-]. constructor; [done | by apply IH].
Qed.

Lemma column_wf X j :
  wf_ndarray2 X → j < n_features X → ∃ c, column X j = Ok c.
Proof.
  unfold column, wf_ndarray2. intros Hwf Hj. rewrite decide_True by done.
  induction Hwf as [|r rs Hr _ IH]; simpl; [by eexists|].
  destruct (lookup_lt_is_Some_2 r j) as [v ->]; [lia|]. simpl.
  destruct IH as [c ->]. simpl. by eexists.
Qed.

Lemma column_length X j c : column X j = Ok c → length c = n_samples X.
Proof.
  intros H%column_Ok_inv. symmetry. by eapply Forall2_length.
Qed.

Lemma column_too_few X j :
  n_features X ≤ j → column X j = Raise (IndexError j (n_features X)).
Proof. intros. unfold column. by rewrite decide_False by lia. Qed.

Lemma column_Raise X j e :
  column X j = Raise e → e = IndexError j (n_features X).
Proof.
  unfold column. case_decide; [|by intros [= <-]].
  induction (rows X) as [|r rs IH]; simpl; [done|].
  destruct (r !! j); simpl; [|by intros [= <-]].
  destruct (mapM _ rs); simpl; [done|]. intros [= <-]. by apply IH.
Qed.

(** With fewer than two columns, reading column 0 or column 1 fails. *)
Lemma column_pair_too_few X :
  n_features X < 2 →
  (∃ j, j < 2 ∧ column X 0 = Raise (IndexError j (n_features X)))
  ∨ (∃ c, column X 0 = Ok c ∧
          column X 1 = Raise (IndexError 1 (n_features X))).
Proof.
  intros HX. destruct (column X 0) as [c|e] eqn:H0.
  - right. exists c. split; [done|]. apply column_too_few.
    destruct (decide (n_features X = 0)) as [Hz|]; [|lia].
    rewrite column_too_few in H0 by lia. done.
  - left. exists 0. split; [lia|]. by rewrite (column_Raise _ _ _ H0).
Qed.



(** X2: when the inliers have fewer than two columns, [_add_sub_plot]
    raises an [IndexError] for column 0 or 1 after it has set the equal
    axes: that one call stays in the drawing and nothing is plotted. *)
Theorem add_sub_plot_inliers_too_few_columns (X_inliers X_outliers : ndarray2)
    (title ic oc : string) (log : list plt_call) :
  n_features X_inliers < 2 →
  ∃ j, j < 2 ∧
    _add_sub_plot X_inliers X_outliers title ic oc log =
      (Raise (IndexError j (n_features X_inliers)),
       log ++ [Plt_axis "equal"]).
Proof.
  intros Hlt. unfold _add_sub_plot. rewrite call_bind. cbv beta.
  destruct (column_pair_too_few _ Hlt) as [(j & Hj & ->) | (c & -> & H1)].
  - exists j. by rewrite lift_bind_Raise.
  - exists 1. rewrite lift_bind_Ok, H1, lift_bind_Raise. split; [lia|done].
Qed.

Lemma add_sub_plot_inliers_too_few_columns_witness :
  ∃ j, j < 2 ∧
    _add_sub_plot X_2x1 X_1x2 "Train set ground truth" "blue" "orange" [] =
      (Raise (IndexError j (n_features X_2x1)), [] ++ [Plt_axis "equal"]).
Proof.
  apply (add_sub_plot_inliers_too_few_columns X_2x1 X_1x2
           "Train set ground truth" "blue" "orange" []).
  simpl. lia.
Defined.

(** X3: when the inliers are well formed with at least two columns and the
    outliers have fewer than two columns, [_add_sub_plot] raises an
    [IndexError] for column 0 or 1 of the outliers after the inliers have
    been plotted: the equal axes and the inlier series stay in the drawing,
    without title and legend. *)
Theorem add_sub_plot_outliers_too_few_columns (X_inliers X_outliers : ndarray2)
    (title ic oc : string) (log : list plt_call) :
  wf_ndarray2 X_inliers → 2 ≤ n_features X_inliers →
  n_features X_outliers < 2 →
  ∃ j xi yi, j < 2 ∧
    _add_sub_plot X_inliers X_outliers title ic oc log =
      (Raise (IndexError j (n_features X_outliers)),
       log ++ [Plt_axis "equal"; Plt_scatter xi yi "inliers" ic 40 None]).
Proof.
  intros Wi Ni Hlt.
  destruct (column_wf X_inliers 0 Wi) as [xi Hxi]; [lia|].
  destruct (column_wf X_inliers 1 Wi) as [yi Hyi]; [lia|].
  unfold _add_sub_plot. rewrite call_bind. cbv beta.
  rewrite Hxi, lift_bind_Ok, Hyi, lift_bind_Ok, call_bind. cbv beta.
  destruct (column_pair_too_few _ Hlt) as [(j & Hj & ->) | (c & -> & H1)].
  - exists j, xi, yi. rewrite lift_bind_Raise, <- app_assoc. done.
  - exists 1, xi, yi. rewrite lift_bind_Ok, H1, lift_bind_Raise, <- app_assoc.
    split; [lia|done].
Qed.

Lemma add_sub_plot_outliers_too_few_columns_witness :
  ∃ j xi yi, j < 2 ∧
    _add_sub_plot X_1x2 X_2x1 "Train set ground truth" "blue" "orange" [] =
      (Raise (IndexError j (n_features X_2x1)),
       [] ++ [Plt_axis "equal";
              Plt_scatter xi yi "inliers" "blue" 40 None]).
Proof.
  apply (add_sub_plot_outliers_too_few_columns X_1x2 X_2x1
           "Train set ground truth" "blue" "orange" []).
  - unfold wf_ndarray2. simpl. repeat constructor.
  - simpl. lia.
  - simpl. lia.
Defined.

(** * Further properties of [_get_sample_indices] *)

Lemma rows_with_label_perm (y : list scalar) (rs : list (list scalar)) :
  length y = length rs → binary_labels y →
  (filter (λ p : scalar * list scalar, scalar_eqb p.1 1 = true) (zip y rs)).*2
  ++ (filter (λ p : scalar * list scalar, scalar_eqb p.1 0 = true) (zip y rs)).*2
  ≡ₚ rs.
Proof.
  intros Hlen Hbin. revert rs Hlen.
  induction Hbin as [|v y Hv _ IH]; intros rs Hlen.
  - by destruct rs.
  - destruct rs as [|r rs]; [done|]. simpl in Hlen.
    specialize (IH rs ltac:(lia)). simpl. rewrite !filter_cons. simpl.
    destruct Hv as [-> | ->]; simpl.
    + rewrite <- Permutation_middle. by constructor.
    + by constructor.
Qed.

(** X4: for [X] and labels [y] of equal length with entries in {0, 1}, the
    rows of the outliers followed by the rows of the inliers are a
    rearrangement of the rows of [X]: no row is lost and none is
    duplicated, also when rows repeat. *)
Theorem get_sample_indices_permutation (X : ndarray2) (y : list scalar) :
  length y = n_samples X →
  binary_labels y →
  ∃ X_outliers X_inliers,
    _get_sample_indices X y = Ok (X_outliers, X_inliers) ∧
    rows X_outliers ++ rows X_inliers ≡ₚ rows X.
Proof.
  intros Hlen Hbin. eexists _, _.
  split; [apply get_sample_indices_filter; lia|].
  simpl. by apply rows_with_label_perm.
Qed.

Lemma get_sample_indices_permutation_witness :
  ∃ X_outliers X_inliers,
    _get_sample_indices X_3x2 [Fin 0; Fin 1; Fin 0] = Ok (X_outliers, X_inliers) ∧
    rows X_outliers ++ rows X_inliers ≡ₚ rows X_3x2.
Proof.
  apply (get_sample_indices_permutation X_3x2 [Fin 0; Fin 1; Fin 0]).
  - reflexivity.
  - unfold binary_labels.
    repeat (constructor; [(by left) || (by right)|]). constructor.
Defined.

Lemma scalar_eqb_swapped v v' :
  swapped_label v v' →
  scalar_eqb v' 1 = scalar_eqb v 0 ∧ scalar_eqb v' 0 = scalar_eqb v 1.
Proof.
  intros [H1 H0].
  assert (∀ a b c d, (a = Fin c ↔ b = Fin d) →
            scalar_eqb a c = scalar_eqb b d) as Hiff.
  { intros a b c d Hab.
    destruct (scalar_eqb a c) eqn:Ea, (scalar_eqb b d) eqn:Eb; try done.
    - apply scalar_eqb_true, Hab, scalar_eqb_true in Ea. congruence.
    - apply scalar_eqb_true, Hab, scalar_eqb_true in Eb. congruence. }
  split; by apply Hiff.
Qed.

Lemma rows_with_label_swapped X y y' :
  Forall2 swapped_label y y' →
  rows_with_label 1 X y' = rows_with_label 0 X y ∧
  rows_with_label 0 X y' = rows_with_label 1 X y.
Proof.
  unfold rows_with_label. generalize (rows X) as rs.
  intros rs Hsw. revert rs.
  induction Hsw as [|v v' y y' Hv _ IH]; intros rs; [done|].
  destruct rs as [|r rs]; [done|].
  destruct (IH rs) as [IH1 IH0]. destruct (scalar_eqb_swapped _ _ Hv) as [E1 E0].
  cbn [zip_with]. rewrite !filter_cons. cbn [fst].
  rewrite E1, E0.
  split.
  - destruct (scalar_eqb v 0); simpl; [f_equal|]; exact IH1.
  - destruct (scalar_eqb v 1); simpl; [f_equal|]; exact IH0.
Qed.

(** X5: exchanging the labels 0 and 1 (other labels may become any value
    other than 0 and 1) exchanges the two halves: the outliers of one call
    are the inliers of the other. *)
Theorem get_sample_indices_swapped (X : ndarray2) (y y' : list scalar) :
  length y ≤ n_samples X →
  Forall2 swapped_label y y' →
  ∃ X_outliers X_inliers,
    _get_sample_indices X y = Ok (X_outliers, X_inliers) ∧
    _get_sample_indices X y' = Ok (X_inliers, X_outliers).
Proof.
  intros Hlen Hsw. eexists _, _. split; [by apply get_sample_indices_filter|].
  rewrite get_sample_indices_filter
    by by rewrite <- (Forall2_length _ _ _ Hsw).
  destruct (rows_with_label_swapped X y y' Hsw) as [-> ->]. done.
Qed.

Lemma get_sample_indices_swapped_witness :
  ∃ X_outliers X_inliers,
    _get_sample_indices X_3x2 [Fin 0; Fin 1; Fin 2] = Ok (X_outliers, X_inliers) ∧
    _get_sample_indices X_3x2 [Fin 1; Fin 0; NaN] = Ok (X_inliers, X_outliers).
Proof.
  apply (get_sample_indices_swapped X_3x2 [Fin 0; Fin 1; Fin 2]
           [Fin 1; Fin 0; NaN]).
  - vm_compute. lia.
  - repeat (constructor; [by split; split|]). constructor.
Defined.

Lemma rows_with_label_app c X X1 X2 y1 y2 :
  rows X = rows X1 ++ rows X2 →
  length y1 = n_samples X1 →
  rows_with_label c X (y1 ++ y2) =
    rows_with_label c X1 y1 ++ rows_with_label c X2 y2.
Proof.
  intros HX Hlen. unfold rows_with_label. rewrite HX.
  rewrite zip_with_app by done. by rewrite filter_app, fmap_app.
Qed.

(** X6: the partition works block by block: when the rows of [X] are those
    of [X1] followed by those of [X2], and [y1] labels [X1], the outliers of
    [X] under [y1 ++ y2] are the outliers of [X1] under [y1] followed by
    those of [X2] under [y2], and the same for the inliers. *)
Theorem get_sample_indices_blocks (X X1 X2 : ndarray2) (y1 y2 : list scalar) :
  rows X = rows X1 ++ rows X2 →
  length y1 = n_samples X1 →
  length y2 ≤ n_samples X2 →
  ∃ o i o1 i1 o2 i2,
    _get_sample_indices X (y1 ++ y2) = Ok (o, i) ∧
    _get_sample_indices X1 y1 = Ok (o1, i1) ∧
    _get_sample_indices X2 y2 = Ok (o2, i2) ∧
    rows o = rows o1 ++ rows o2 ∧
    rows i = rows i1 ++ rows i2.
Proof.
  intros HX H1 H2. eexists _, _, _, _, _, _.
  split; [apply get_sample_indices_filter|].
  { unfold n_samples in *. rewrite HX, !length_app. lia. }
  split; [apply get_sample_indices_filter; lia|].
  split; [by apply get_sample_indices_filter|].
  simpl. by rewrite !(rows_with_label_app _ X X1 X2).
Qed.

Lemma get_sample_indices_blocks_witness :
  ∃ o i o1 i1 o2 i2,
    _get_sample_indices X_3x2 ([Fin 1] ++ [Fin 0; Fin 1]) = Ok (o, i) ∧
    _get_sample_indices X_1x2 [Fin 1] = Ok (o1, i1) ∧
    _get_sample_indices
      X_2x2 [Fin 0; Fin 1] = Ok (o2, i2) ∧
    rows o = rows o1 ++ rows o2 ∧
    rows i = rows i1 ++ rows i2.
Proof.
  apply (get_sample_indices_blocks X_3x2 X_1x2 X_2x2
           [Fin 1] [Fin 0; Fin 1]).
  - reflexivity.
  - reflexivity.
  - vm_compute. lia.
Defined.

Lemma get_sample_indices_Ok_inv X y Xo Xi :
  _get_sample_indices X y = Ok (Xo, Xi) →
  getitem X (np_where (np_eq y 1)) = Ok Xo ∧
  getitem X (np_where (np_eq y 0)) = Ok Xi.
Proof.
  unfold _get_sample_indices.
  destruct (getitem X (np_where (np_eq y 1))) as [o|]; simpl; [|done].
  destruct (getitem X (np_where (np_eq y 0))) as [i|]; simpl; [|done].
  by intros [= -> ->].
Qed.

Lemma where_from_count i y :
  length (where_from i (np_eq y 1)) + length (where_from i (np_eq y 0))
  ≤ length y.
Proof.
  revert i. induction y as [|v y IH]; intros i; simpl; [lia|].
  specialize (IH (S i)).
  destruct v as [z| |]; simpl; try lia.
  destruct (Z.eqb_spec z 1), (Z.eqb_spec z 0); simpl; lia.
Qed.

Lemma selects_rows X idx sub :
  selects X idx sub →
  n_features sub = n_features X ∧ rows sub ⊆ rows X ∧
  n_samples sub = length idx ∧ (wf_ndarray2 X → wf_ndarray2 sub).
Proof.
  intros [Hf Hsel]. split_and!; [done|..].
  - intros r [k Hk]%list_elem_of_lookup.
    destruct (Forall2_lookup_r _ _ _ _ _ Hsel Hk) as (j & _ & Hj).
    apply list_elem_of_lookup. eauto.
  - symmetry. by eapply Forall2_length.
  - unfold wf_ndarray2. rewrite Hf, !Forall_forall.
    intros Hwf r [k Hk]%list_elem_of_lookup. apply Hwf.
    destruct (Forall2_lookup_r _ _ _ _ _ Hsel Hk) as (j & _ & Hj).
    apply list_elem_of_lookup. eauto.
Qed.

(** X7: whenever [_get_sample_indices] returns, whatever the labels and
    their number, both arrays have the columns of [X], each of their rows is
    a row of [X], together they have at most as many rows as there are
    labels, and they are well formed when [X] is. *)
Theorem get_sample_indices_returns_rows (X : ndarray2) (y : list scalar)
    (X_outliers X_inliers : ndarray2) :
  _get_sample_indices X y = Ok (X_outliers, X_inliers) →
  n_features X_outliers = n_features X ∧
  n_features X_inliers = n_features X ∧
  rows X_outliers ⊆ rows X ∧
  rows X_inliers ⊆ rows X ∧
  n_samples X_outliers + n_samples X_inliers ≤ length y ∧
  (wf_ndarray2 X → wf_ndarray2 X_outliers ∧ wf_ndarray2 X_inliers).
Proof.
  intros [Ho Hi]%get_sample_indices_Ok_inv.
  apply getitem_selects, selects_rows in Ho as (Fo & So & No & Wo).
  apply getitem_selects, selects_rows in Hi as (Fi & Si & Ni & Wi).
  split_and!; try done.
  - rewrite No, Ni. apply where_from_count.
  - auto.
Qed.

Lemma get_sample_indices_returns_rows_witness :
  n_features {| n_features := 2; rows := [[Fin 1; Fin 2]] |} = n_features X_3x2 ∧
  n_features {| n_features := 2; rows := [[Fin 3; Fin 4]] |} = n_features X_3x2 ∧
  rows {| n_features := 2; rows := [[Fin 1; Fin 2]] |} ⊆ rows X_3x2 ∧
  rows {| n_features := 2; rows := [[Fin 3; Fin 4]] |} ⊆ rows X_3x2 ∧
  n_samples {| n_features := 2; rows := [[Fin 1; Fin 2]] |}
    + n_samples {| n_features := 2; rows := [[Fin 3; Fin 4]] |}
    ≤ length [Fin 1; Fin 0; Fin 2; Fin 3] ∧
  (wf_ndarray2 X_3x2 →
     wf_ndarray2 {| n_features := 2; rows := [[Fin 1; Fin 2]] |} ∧
     wf_ndarray2 {| n_features := 2; rows := [[Fin 3; Fin 4]] |}).
Proof.
  apply (get_sample_indices_returns_rows X_3x2 [Fin 1; Fin 0; Fin 2; Fin 3]).
  reflexivity.
Defined.

(** * Further properties of the partition on references *)

(** X8: the two arrays that [_get_sample_indices] returns are new objects:
    their references were not in the store before the call, they differ from
    each other and from the references [X] and [y], so that neither result
    is a view of [X] or of the other result. *)
Theorem get_sample_indices_ref_fresh (σ σ' : gmap nat obj) (X y o i : nat)
    (mX : ndarray2) (vy : list scalar) :
  σ !! X = Some (Obj_matrix mX) →
  σ !! y = Some (Obj_vector vy) →
  _get_sample_indices_ref X y σ = (Ok (o, i), σ') →
  σ !! o = None ∧ σ !! i = None ∧ o ≠ i ∧
  o ≠ X ∧ o ≠ y ∧ i ≠ X ∧ i ≠ y.
Proof.
  intros HX Hy H. unfold _get_sample_indices_ref in H.
  apply bind_Ok_inv in H as (m1 & σ1 & Hm1 & H).
  destruct (ref_eq_run σ y vy 1 Hy) as (m1' & Hm1' & Hf1).
  rewrite Hm1' in Hm1. injection Hm1 as -> <-.
  set (σ1 := <[m1 := _]> σ) in *.
  assert (σ ⊆ σ1) as Hsub1 by by apply insert_subseteq.
  apply bind_Ok_inv in H as (i1 & σ2' & Hi1 & H).
  destruct (ref_where_run σ1 m1 (np_eq vy 1)) as (i1' & Hi1' & Hf2);
    [apply lookup_insert_eq|].
  rewrite Hi1' in Hi1. injection Hi1 as -> <-.
  set (σ2 := <[i1 := _]> σ1) in *.
  assert (σ1 ⊆ σ2) as Hsub2 by by apply insert_subseteq.
  assert (σ ⊆ σ2) as Hsub02 by by etrans.
  apply bind_Ok_inv in H as (lo & σ3' & Hlo & H).
  pose proof (ref_getitem_run σ2 X i1 mX (np_where (np_eq vy 1))
                (lookup_weaken _ _ _ _ HX Hsub02) (lookup_insert_eq _ _ _))
    as Hg1.
  destruct (getitem mX (np_where (np_eq vy 1))) as [Xo|e]; [|congruence].
  destruct Hg1 as (lo' & Hlo' & Hf3).
  rewrite Hlo' in Hlo. injection Hlo as -> <-.
  set (σ3 := <[lo := _]> σ2) in *.
  assert (σ2 ⊆ σ3) as Hsub3 by by apply insert_subseteq.
  assert (σ ⊆ σ3) as Hsub03 by by etrans.
  apply bind_Ok_inv in H as (m0 & σ4' & Hm0 & H).
  destruct (ref_eq_run σ3 y vy 0) as (m0' & Hm0' & Hf4);
    [by eapply lookup_weaken|].
  rewrite Hm0' in Hm0. injection Hm0 as -> <-.
  set (σ4 := <[m0 := _]> σ3) in *.
  assert (σ3 ⊆ σ4) as Hsub4 by by apply insert_subseteq.
  apply bind_Ok_inv in H as (i0 & σ5' & Hi0 & H).
  destruct (ref_where_run σ4 m0 (np_eq vy 0)) as (i0' & Hi0' & Hf5);
    [apply lookup_insert_eq|].
  rewrite Hi0' in Hi0. injection Hi0 as -> <-.
  set (σ5 := <[i0 := _]> σ4) in *.
  assert (σ4 ⊆ σ5) as Hsub5 by by apply insert_subseteq.
  assert (σ3 ⊆ σ5) as Hsub35 by by etrans.
  assert (σ ⊆ σ5) as Hsub05 by by etrans.
  apply bind_Ok_inv in H as (li & σ6' & Hli & H).
  pose proof (ref_getitem_run σ5 X i0 mX (np_where (np_eq vy 0))
                (lookup_weaken _ _ _ _ HX Hsub05) (lookup_insert_eq _ _ _))
    as Hg0.
  destruct (getitem mX (np_where (np_eq vy 0))) as [Xi|e]; [|congruence].
  destruct Hg0 as (li' & Hli' & Hf6).
  rewrite Hli' in Hli. injection Hli as -> <-.
  apply ret_Ok_inv in H as [[= -> ->] _].
  assert (σ !! lo = None) as Hlo_new by by eapply lookup_weaken_None.
  assert (σ !! li = None) as Hli_new by by eapply lookup_weaken_None.
  assert (σ5 !! lo = Some (Obj_matrix Xo)) as Hlo5.
  { apply (lookup_weaken σ3); [apply lookup_insert_eq | done]. }
  split_and!; try done; congruence.
Qed.

Lemma get_sample_indices_ref_fresh_witness :
  store_example !! 4 = None ∧ store_example !! 7 = None ∧ 4 ≠ 7 ∧
  4 ≠ 0 ∧ 4 ≠ 1 ∧ 7 ≠ 0 ∧ 7 ≠ 1.
Proof.
  apply (get_sample_indices_ref_fresh store_example
           (_get_sample_indices_ref 0 1 store_example).2 0 1 4 7
           X_3x2 [Fin 1; Fin 0; Fin 2]).
  - reflexivity.
  - reflexivity.
  - vm_compute. reflexivity.
Defined.

(** * Further properties of [visualize] *)

Lemma add_sub_plot_frame_intro X_inliers X_outliers title ic oc d log :
  _add_sub_plot X_inliers X_outliers title ic oc [] = (Ok (), d) →
  _add_sub_plot X_inliers X_outliers title ic oc log = (Ok (), log ++ d).
Proof.
  intros (xi & yi & xo & yo & Hxi & Hyi & Hxo & Hyo & ->)%add_sub_plot_Ok_inv.
  by apply add_sub_plot_Ok.
Qed.

(** A call whose checks pass, whose partitions return and whose panels can
    be drawn returns, with the drawing of [visualize_Ok_inv]. *)
Lemma visualize_Ok_intro clf_name X_train y_train X_test y_test
    y_train_pred y_test_pred show_figure save_figure log
    ytr yte ytrp ytep o1 i1 o2 i2 o3 i3 o4 i4 d1 d2 d3 d4 :
  check_X_y X_train y_train = Ok (X_train, ytr) →
  check_X_y X_test y_test = Ok (X_test, yte) →
  column_or_1d y_test_pred = Ok ytep →
  column_or_1d y_train_pred = Ok ytrp →
  n_features X_train = 2 → n_features X_test = 2 →
  length ytr = length ytrp → length yte = length ytep →
  _get_sample_indices X_train ytr = Ok (o1, i1) →
  _get_sample_indices X_train ytrp = Ok (o2, i2) →
  _get_sample_indices X_test yte = Ok (o3, i3) →
  _get_sample_indices X_test ytep = Ok (o4, i4) →
  _add_sub_plot i1 o1 "Train set ground truth" "blue" "orange" []
    = (Ok (), d1) →
  _add_sub_plot i2 o2 "Train set prediction" "blue" "orange" []
    = (Ok (), d2) →
  _add_sub_plot i3 o3 "Test set ground truth" "green" "red" []
    = (Ok (), d3) →
  _add_sub_plot i4 o4 "Test set prediction" "green" "red" []
    = (Ok (), d4) →
  visualize clf_name X_train y_train X_test y_test y_train_pred y_test_pred
    show_figure save_figure log
  = (Ok (), log
      ++ [Plt_figure (12, 10); Plt_suptitle ("Demo of " +:+ clf_name) 15]
      ++ [Fig_add_subplot 221] ++ d1 ++ [Fig_add_subplot 222] ++ d2
      ++ [Fig_add_subplot 223] ++ d3 ++ [Fig_add_subplot 224] ++ d4
      ++ output_calls clf_name show_figure save_figure).
Proof.
  intros H1 H2 H3 H4 F1 F2 L1 L2 P1 P2 P3 P4 D1 D2 D3 D4.
  unfold visualize.
  rewrite H1, lift_bind_Ok. cbv beta iota.
  rewrite H2, lift_bind_Ok. cbv beta iota.
  rewrite H3, lift_bind_Ok, H4, lift_bind_Ok.
  rewrite decide_False by (intros [?|?]; done). rewrite ret_bind.
  apply check_consistent_length_Ok in L1, L2.
  rewrite L1, lift_bind_Ok, L2, lift_bind_Ok.
  rewrite P1, lift_bind_Ok. cbv beta iota.
  rewrite P2, lift_bind_Ok. cbv beta iota.
  rewrite P3, lift_bind_Ok. cbv beta iota.
  rewrite P4, lift_bind_Ok. cbv beta iota.
  repeat (rewrite call_bind; cbv beta).
  rewrite (bind_run_Ok _ _ _ _ _ (add_sub_plot_frame_intro _ _ _ _ _ _ _ D1)).
  rewrite call_bind. cbv beta.
  rewrite (bind_run_Ok _ _ _ _ _ (add_sub_plot_frame_intro _ _ _ _ _ _ _ D2)).
  rewrite call_bind. cbv beta.
  rewrite (bind_run_Ok _ _ _ _ _ (add_sub_plot_frame_intro _ _ _ _ _ _ _ D3)).
  rewrite call_bind. cbv beta.
  rewrite (bind_run_Ok _ _ _ _ _ (add_sub_plot_frame_intro _ _ _ _ _ _ _ D4)).
  unfold output_calls.
  destruct save_figure, show_figure;
    rewrite ?call_bind, ?ret_bind; cbv beta; unfold call, mret, stateE_ret;
    f_equal; rewrite <- ?app_assoc; simpl; rewrite <- ?app_assoc; simpl;
    rewrite ?app_nil_r; done.
Qed.



Lemma assert_all_finite_Ok v : all_finite v → _assert_all_finite v = Ok ().
Proof.
  unfold _assert_all_finite, all_finite. intros Hv.
  assert (forallb isfinite v = true) as ->; [|done].
  induction Hv as [|s v Hs _ IH]; [done|]. simpl. by rewrite Hs.
Qed.

Lemma all_finite_concat rs : Forall all_finite rs → all_finite (concat rs).
Proof.
  unfold all_finite. induction 1 as [|r rs Hr _ IH]; simpl; [constructor|].
  apply Forall_app. done.
Qed.

Lemma check_array_valid X :
  Forall all_finite (rows X) → 1 ≤ n_samples X → 1 ≤ n_features X →
  check_array X = Ok X.
Proof.
  intros Hfin Hn Hf. unfold check_array.
  rewrite assert_all_finite_Ok by by apply all_finite_concat. simpl.
  rewrite !decide_False by lia. done.
Qed.

Lemma check_X_y_valid X y v :
  Forall all_finite (rows X) → 1 ≤ n_samples X → 1 ≤ n_features X →
  column_or_1d y = Ok v → all_finite v → length v = n_samples X →
  check_X_y X y = Ok (X, v).
Proof.
  intros Hfin Hn Hf Hy Hv Hlen. unfold check_X_y.
  rewrite check_array_valid by done. simpl. rewrite Hy. simpl.
  rewrite assert_all_finite_Ok by done. simpl.
  rewrite (proj2 (check_consistent_length_Ok _ _)) by done. done.
Qed.

(** The halves of a well-formed matrix of two columns can be drawn. *)
Lemma panel_drawable X y o i title ic oc :
  wf_ndarray2 X → n_features X = 2 →
  _get_sample_indices X y = Ok (o, i) →
  ∃ d, _add_sub_plot i o title ic oc [] = (Ok (), d).
Proof.
  intros Hwf Hf [Ho Hi]%get_sample_indices_Ok_inv.
  apply getitem_selects, selects_rows in Ho as (Fo & _ & _ & Wo).
  apply getitem_selects, selects_rows in Hi as (Fi & _ & _ & Wi).
  destruct (column_wf i 0 (Wi Hwf)) as [xi Hxi]; [lia|].
  destruct (column_wf i 1 (Wi Hwf)) as [yi Hyi]; [lia|].
  destruct (column_wf o 0 (Wo Hwf)) as [xo Hxo]; [lia|].
  destruct (column_wf o 1 (Wo Hwf)) as [yo Hyo]; [lia|].
  eexists. by apply add_sub_plot_Ok.
Qed.

(** Once the checks of [visualize] have passed, the call returns. *)
Lemma visualize_checked clf_name X_train y_train X_test y_test
    y_train_pred y_test_pred show_figure save_figure log ytr yte ytrp ytep :
  wf_ndarray2 X_train → wf_ndarray2 X_test →
  check_X_y X_train y_train = Ok (X_train, ytr) →
  check_X_y X_test y_test = Ok (X_test, yte) →
  column_or_1d y_test_pred = Ok ytep →
  column_or_1d y_train_pred = Ok ytrp →
  n_features X_train = 2 → n_features X_test = 2 →
  length ytr = length ytrp → length yte = length ytep →
  ∃ log',
    visualize clf_name X_train y_train X_test y_test y_train_pred y_test_pred
      show_figure save_figure log = (Ok (), log').
Proof.
  intros W1 W2 H1 H2 H3 H4 F1 F2 L1 L2.
  destruct (check_X_y_Ok _ _ _ _ H1) as (_ & _ & _ & _ & N1).
  destruct (check_X_y_Ok _ _ _ _ H2) as (_ & _ & _ & _ & N2).
  destruct (get_sample_indices_positions X_train ytr) as (o1 & i1 & P1 & _);
    [lia|].
  destruct (get_sample_indices_positions X_train ytrp) as (o2 & i2 & P2 & _);
    [lia|].
  destruct (get_sample_indices_positions X_test yte) as (o3 & i3 & P3 & _);
    [lia|].
  destruct (get_sample_indices_positions X_test ytep) as (o4 & i4 & P4 & _);
    [lia|].
  destruct (panel_drawable _ _ _ _ "Train set ground truth" "blue" "orange"
              W1 F1 P1) as [d1 D1].
  destruct (panel_drawable _ _ _ _ "Train set prediction" "blue" "orange"
              W1 F1 P2) as [d2 D2].
  destruct (panel_drawable _ _ _ _ "Test set ground truth" "green" "red"
              W2 F2 P3) as [d3 D3].
  destruct (panel_drawable _ _ _ _ "Test set prediction" "green" "red"
              W2 F2 P4) as [d4 D4].
  eexists.
  by apply (visualize_Ok_intro clf_name X_train y_train X_test y_test
              y_train_pred y_test_pred show_figure save_figure log
              ytr yte ytrp ytep o1 i1 o2 i2 o3 i3 o4 i4 d1 d2 d3 d4).
Qed.

(** X10: [visualize] returns on valid inputs: train and test matrices
    that are well formed, finite, with two columns and at least one row;
    labels that are flat (or a single column), finite and as long as their
    matrix has rows; predictions that are flat (or a single column) and of
    that length.  Labels and predictions need not be 0 or 1, and the
    predictions need not be finite. *)
Theorem visualize_valid_inputs (clf_name : string)
    (X_train : ndarray2) (y_train : labels)
    (X_test : ndarray2) (y_test : labels) (y_train_pred y_test_pred : labels)
    (show_figure save_figure : bool) (log : list plt_call)
    (ytr yte ytrp ytep : list scalar) :
  wf_ndarray2 X_train → wf_ndarray2 X_test →
  n_features X_train = 2 → n_features X_test = 2 →
  1 ≤ n_samples X_train → 1 ≤ n_samples X_test →
  Forall all_finite (rows X_train) → Forall all_finite (rows X_test) →
  column_or_1d y_train = Ok ytr → column_or_1d y_test = Ok yte →
  column_or_1d y_train_pred = Ok ytrp → column_or_1d y_test_pred = Ok ytep →
  all_finite ytr → all_finite yte →
  length ytr = n_samples X_train → length ytrp = n_samples X_train →
  length yte = n_samples X_test → length ytep = n_samples X_test →
  ∃ log',
    visualize clf_name X_train y_train X_test y_test y_train_pred y_test_pred
      show_figure save_figure log = (Ok (), log').
Proof.
  intros W1 W2 F1 F2 N1 N2 A1 A2 C1 C2 C3 C4 Y1 Y2 L1 L2 L3 L4.
  apply (visualize_checked clf_name X_train y_train X_test y_test
           y_train_pred y_test_pred show_figure save_figure log
           ytr yte ytrp ytep); try done; try lia.
  - apply check_X_y_valid; try done; lia.
  - apply check_X_y_valid; try done; lia.
Qed.

Lemma visualize_valid_inputs_witness :
  ∃ log',
    visualize "LOF" X_3x2 y_3 X_3x2 y_3 y_3_pred y_3_column true true []
      = (Ok (), log').
Proof.
  apply (visualize_valid_inputs "LOF" X_3x2 y_3 X_3x2 y_3 y_3_pred y_3_column
           true true []
           [Fin 1; Fin 0; Fin 0] [Fin 1; Fin 0; Fin 0]
           [Fin 0; Fin 0; Fin 1] [Fin 0; Fin 1; Fin 0]).
  all: try reflexivity.
  all: try (simpl; lia).
  all: try (unfold wf_ndarray2; simpl; repeat constructor).
Defined.

Lemma assert_all_finite_Raise v e :
  _assert_all_finite v = Raise e → ∃ k, e = ValueError k.
Proof.
  unfold _assert_all_finite. destruct (forallb isfinite v); [done|].
  intros [= <-]. by eexists.
Qed.

Lemma column_or_1d_Raise y e :
  column_or_1d y = Raise e → ∃ k, e = ValueError k.
Proof.
  destruct y as [v|m]; simpl; [done|].
  case_decide; [done|]. intros [= <-]. by eexists.
Qed.

Lemma check_array_Raise X e :
  check_array X = Raise e → ∃ k, e = ValueError k.
Proof.
  unfold check_array.
  destruct (_assert_all_finite (concat (rows X))) as [[]|e'] eqn:Hfin; simpl.
  - repeat case_decide; try done; intros [= <-]; by eexists.
  - intros [= <-]. by eapply assert_all_finite_Raise.
Qed.

(** Every exception of [check_X_y] is a [ValueError]. *)
Lemma check_X_y_Raise_kind X y e :
  check_X_y X y = Raise e → ∃ k, e = ValueError k.
Proof.
  unfold check_X_y.
  destruct (check_array X) as [X'|e1] eqn:HA; simpl.
  2: { intros [= <-]. by eapply check_array_Raise. }
  destruct (column_or_1d y) as [v|e2] eqn:HC; simpl.
  2: { intros [= <-]. by eapply column_or_1d_Raise. }
  destruct (_assert_all_finite v) as [[]|e3] eqn:HF; simpl.
  2: { intros [= <-]. by eapply assert_all_finite_Raise. }
  destruct (check_consistent_length _) as [[]|e4] eqn:HL; simpl; [done|].
  intros [= <-]. apply check_consistent_length_Raise in HL as [_ ->].
  by eexists.
Qed.


Lemma first_error_kind X_train y_train X_test y_test
    y_train_pred y_test_pred e :
  first_error (validations X_train y_train X_test y_test
                 y_train_pred y_test_pred) = Some e →
  ∃ k, e = ValueError k.
Proof.
  unfold validations.
  destruct (check_X_y X_train y_train) as [[X1 ytr]|e1] eqn:H1; simpl.
  2: { intros [= <-]. by eapply check_X_y_Raise_kind. }
  destruct (check_X_y X_test y_test) as [[X2 yte]|e2] eqn:H2; simpl.
  2: { intros [= <-]. by eapply check_X_y_Raise_kind. }
  destruct (column_or_1d y_test_pred) as [ytep|e3] eqn:C4; simpl.
  2: { intros [= <-]. by eapply column_or_1d_Raise. }
  destruct (column_or_1d y_train_pred) as [ytrp|e4] eqn:C3; simpl.
  2: { intros [= <-]. by eapply column_or_1d_Raise. }
  case_decide; simpl; [intros [= <-]; by eexists|].
  destruct (check_X_y_Ok _ _ _ _ H1) as (_ & _ & -> & _).
  destruct (check_X_y_Ok _ _ _ _ H2) as (_ & _ & -> & _). simpl.
  destruct (check_consistent_length [length ytr; length ytrp])
    as [[]|e5] eqn:H5; simpl.
  2: { intros [= <-]. apply check_consistent_length_Raise in H5 as [_ ->].
       by eexists. }
  destruct (check_consistent_length [length yte; length ytep])
    as [[]|e6] eqn:H6; simpl; [done|].
  intros [= <-]. apply check_consistent_length_Raise in H6 as [_ ->].
  by eexists.
Qed.

(** X11: a failing validation is raised as it is and before the figure is
    created: when one of the validations of [visualize] fails, the call
    raises the exception of the first one that fails, in the order in which
    [visualize] validates; it is a [ValueError], and no call to matplotlib
    has been made. *)
Theorem visualize_validation_error (clf_name : string)
    (X_train : ndarray2) (y_train : labels)
    (X_test : ndarray2) (y_test : labels) (y_train_pred y_test_pred : labels)
    (show_figure save_figure : bool) (log : list plt_call) (e : exn) :
  first_error (validations X_train y_train X_test y_test
                 y_train_pred y_test_pred) = Some e →
  visualize clf_name X_train y_train X_test y_test y_train_pred y_test_pred
    show_figure save_figure log = (Raise e, log) ∧
  ∃ k, e = ValueError k.
Proof.
  intros Hfe. split; [|by eapply first_error_kind].
  pose proof (visualize_validations clf_name X_train y_train X_test y_test
                y_train_pred y_test_pred show_figure save_figure log) as Hv.
  by rewrite Hfe in Hv.
Qed.

Lemma visualize_validation_error_witness :
  visualize "LOF" X_1x2 (Labels1d [NaN]) X_1x3 (Labels1d [Fin 0])
    (Labels1d [Fin 0]) (Labels1d [Fin 0]) true true []
    = (Raise (ValueError Input_not_finite), []) ∧
  ∃ k, ValueError Input_not_finite = ValueError k.
Proof.
  apply (visualize_validation_error "LOF" X_1x2 (Labels1d [NaN]) X_1x3
           (Labels1d [Fin 0]) (Labels1d [Fin 0]) (Labels1d [Fin 0])
           true true [] (ValueError Input_not_finite)).
  vm_compute. reflexivity.
Defined.

(** X12: when the checks made before it pass and the train or the test
    matrix does not have two columns, the message of the shape error is
    Input data has to be 2-d for visualization. The input data has (r, c).
    where (r, c) is always the shape of the train matrix, also when the test
    matrix is the one with the wrong number of columns. *)
Theorem visualize_not_2d_names_train_shape (clf_name : string)
    (X_train : ndarray2) (y_train : labels)
    (X_test : ndarray2) (y_test : labels) (y_train_pred y_test_pred : labels)
    (show_figure save_figure : bool) (log : list plt_call) :
  is_Ok (check_X_y X_train y_train) →
  is_Ok (check_X_y X_test y_test) →
  is_Ok (column_or_1d y_test_pred) →
  is_Ok (column_or_1d y_train_pred) →
  n_features X_train ≠ 2 ∨ n_features X_test ≠ 2 →
  visualize clf_name X_train y_train X_test y_test y_train_pred y_test_pred
    show_figure save_figure log
  = (Raise (ValueError (Not_2d_for_visualization
       ("Input data has to be 2-d for visualization. The input data has "
        +:+ ("(" +:+ pretty (n_samples X_train) +:+ ", "
                 +:+ pretty (n_features X_train) +:+ ")") +:+ "."))),
     log).
Proof.
  intros [[X1 ytr] H1] [[X2 yte] H2] [ytep H3] [ytrp H4] Hshape.
  destruct (check_X_y_Ok _ _ _ _ H1) as (-> & _).
  destruct (check_X_y_Ok _ _ _ _ H2) as (-> & _).
  unfold visualize.
  rewrite H1, lift_bind_Ok. cbv beta iota.
  rewrite H2, lift_bind_Ok. cbv beta iota.
  rewrite H3, lift_bind_Ok, H4, lift_bind_Ok.
  rewrite decide_True by done. by rewrite lift_bind_Raise.
Qed.

Lemma visualize_not_2d_names_train_shape_witness :
  visualize "LOF" X_1x2 (Labels1d [Fin 0]) X_1x3 (Labels1d [Fin 0])
    (Labels1d [Fin 0]) (Labels1d [Fin 0]) true false []
  = (Raise (ValueError (Not_2d_for_visualization
       ("Input data has to be 2-d for visualization. The input data has "
        +:+ ("(" +:+ pretty (n_samples X_1x2) +:+ ", "
                 +:+ pretty (n_features X_1x2) +:+ ")") +:+ "."))),
     []).
Proof.
  apply (visualize_not_2d_names_train_shape "LOF" X_1x2 (Labels1d [Fin 0])
           X_1x3 (Labels1d [Fin 0]) (Labels1d [Fin 0]) (Labels1d [Fin 0])
           true false []).
  - eexists. vm_compute. reflexivity.
  - eexists. vm_compute. reflexivity.
  - eexists. reflexivity.
  - eexists. reflexivity.
  - right. vm_compute. lia.
Defined.

Lemma columns_zip sub xs ys :
  wf_ndarray2 sub → n_features sub = 2 →
  column sub 0 = Ok xs → column sub 1 = Ok ys →
  zip_with (λ a b, [a; b]) xs ys = rows sub.
Proof.
  intros Hwf Hf H0%column_Ok_inv H1%column_Ok_inv.
  unfold wf_ndarray2 in Hwf. rewrite Hf in Hwf.
  revert xs ys H0 H1. induction Hwf as [|r rs Hr _ IH]; intros xs ys H0 H1.
  - apply Forall2_nil_inv_l in H0 as ->. by apply Forall2_nil_inv_l in H1 as ->.
  - apply Forall2_cons_inv_l in H0 as (a & xs' & Ha & H0 & ->).
    apply Forall2_cons_inv_l in H1 as (b & ys' & Hb & H1 & ->).
    simpl. f_equal; [|by apply IH].
    destruct r as [|a' [|b' [|]]]; simplify_eq/=; done.
Qed.

(** X13: partitioning and then drawing plots every sample once: for a
    well-formed matrix [X] of two columns with labels in {0, 1} of its
    length, the panel drawn from the partition has the points of the
    outlier series and of the inlier series, each point being the two
    features of a row, as a rearrangement of the rows of [X]. *)
Theorem partition_plotted_once (X : ndarray2) (y : list scalar)
    (title ic oc : string) (log : list plt_call) :
  wf_ndarray2 X → n_features X = 2 →
  length y = n_samples X → binary_labels y →
  ∃ X_outliers X_inliers xi yi xo yo,
    _get_sample_indices X y = Ok (X_outliers, X_inliers) ∧
    _add_sub_plot X_inliers X_outliers title ic oc log =
      (Ok (), log ++ [ Plt_axis "equal";
                       Plt_scatter xi yi "inliers" ic 40 None;
                       Plt_scatter xo yo "outliers" oc 50 (Some "^");
                       Plt_title title 15;
                       Plt_xticks [];
                       Plt_yticks [];
                       Plt_legend 4 10 ]) ∧
    zip_with (λ a b, [a; b]) xo yo ++ zip_with (λ a b, [a; b]) xi yi
      ≡ₚ rows X.
Proof.
  intros Hwf Hf Hlen Hbin.
  pose proof (get_sample_indices_filter X y ltac:(lia)) as Hrun.
  destruct (get_sample_indices_Ok_inv _ _ _ _ Hrun) as [Ho Hi].
  apply getitem_selects, selects_rows in Ho as (Fo & _ & _ & Wo).
  apply getitem_selects, selects_rows in Hi as (Fi & _ & _ & Wi).
  specialize (Wo Hwf). specialize (Wi Hwf).
  destruct (column_wf _ 0 Wi) as [xi Hxi]; [lia|].
  destruct (column_wf _ 1 Wi) as [yi Hyi]; [lia|].
  destruct (column_wf _ 0 Wo) as [xo Hxo]; [lia|].
  destruct (column_wf _ 1 Wo) as [yo Hyo]; [lia|].
  eexists _, _, xi, yi, xo, yo. split; [exact Hrun|]. split.
  - by apply add_sub_plot_Ok.
  - rewrite (columns_zip _ _ _ Wo) by (done || congruence).
    rewrite (columns_zip _ _ _ Wi) by (done || congruence).
    simpl. by apply rows_with_label_perm.
Qed.

Lemma partition_plotted_once_witness :
  ∃ X_outliers X_inliers xi yi xo yo,
    _get_sample_indices X_3x2 [Fin 0; Fin 1; Fin 0]
      = Ok (X_outliers, X_inliers) ∧
    _add_sub_plot X_inliers X_outliers "Train set ground truth"
      "blue" "orange" [] =
      (Ok (), [] ++ [ Plt_axis "equal";
                       Plt_scatter xi yi "inliers" "blue" 40 None;
                       Plt_scatter xo yo "outliers" "orange" 50 (Some "^");
                       Plt_title "Train set ground truth" 15;
                       Plt_xticks [];
                       Plt_yticks [];
                       Plt_legend 4 10 ]) ∧
    zip_with (λ a b, [a; b]) xo yo ++ zip_with (λ a b, [a; b]) xi yi
      ≡ₚ rows X_3x2.
Proof.
  apply (partition_plotted_once X_3x2 [Fin 0; Fin 1; Fin 0]
           "Train set ground truth" "blue" "orange" []).
  - unfold wf_ndarray2. simpl. repeat constructor.
  - reflexivity.
  - reflexivity.
  - unfold binary_labels.
    repeat (constructor; [(by left) || (by right)|]). constructor.
Defined.
